(** * py_wget_cookie: a shallow embedding of [src/py_wget_cookie.py]

    The script downloads one URL with the cookies of the locally installed
    browsers.  It has two functions, [get_output_filename] and
    [download_with_cookies], and a [__main__] block that sequences them.

    The embedding is organised as follows.
    - [Str]: the operations of Python's [str] that the script and the
      library functions it calls rely on ([find], slices, [split], ...).
    - [Exc]: the classes of the Python exceptions that the [except] clauses
      of the script discriminate on, followed by the exceptions themselves
      and the outcomes of an evaluation.
    - [IpAddress], [UrlParse], [PosixPath]: the standard-library functions
      [ipaddress.ip_address], [urllib.parse.urlparse] and
      [os.path.basename] (CPython 3.11, POSIX flavour of [os.path]).
    - The world the script acts on (standard output, file system, the calls
      made to the external collaborators), the environment that decides
      what the collaborators answer, and the state-and-exception monad in
      which the script is written.
    - [Requests]: the part of the [requests] library the script uses.
    - The script itself, function by function, then the vocabulary of the
      properties and the properties.

    A Python [str] is modelled by [string]; each [ascii] stands for one code
    point below 256. *)

From Stdlib Require Import ZArith Lia Bool List Ascii String DecimalString.
From stdpp Require Import base gmap strings list.
Import ListNotations.

Local Open Scope string_scope.
Local Open Scope Z_scope.

(* ===================================================================== *)
(** * Python strings *)
(* ===================================================================== *)

Module Str.

(** [len(s)] *)
Definition len (s : string) : Z := Z.of_nat (String.length s).

(** [c in s], for a one-character [c] *)
Fixpoint contains (c : ascii) (s : string) : bool :=
  match s with
  | EmptyString => false
  | String a s' => if Ascii.eqb a c then true else contains c s'
  end.

(** The first [n] characters, and what follows them. *)
Fixpoint take (n : nat) (s : string) : string :=
  match n, s with
  | O, _ => EmptyString
  | S _, EmptyString => EmptyString
  | S n', String a s' => String a (take n' s')
  end.

Fixpoint drop (n : nat) (s : string) : string :=
  match n, s with
  | O, _ => s
  | S _, EmptyString => EmptyString
  | S n', String _ s' => drop n' s'
  end.

(** How Python turns a slice bound into a position: a negative bound counts
    from the end, and every bound is clamped to [0 .. len(s)]. *)
Definition bound (i : Z) (s : string) : nat :=
  if i <? 0 then Z.to_nat (Z.max 0 (len s + i))
  else Z.to_nat (Z.min i (len s)).

(** [s[:i]] and [s[i:]] *)
Definition slice_to (i : Z) (s : string) : string := take (bound i s) s.
Definition slice_from (i : Z) (s : string) : string := drop (bound i s) s.

(** [s[i:j]] *)
Definition slice (i j : Z) (s : string) : string :=
  drop (bound i s) (take (bound j s) s).

(** Position of the first [c] in [s], if any. *)
Fixpoint index_of (c : ascii) (s : string) : option nat :=
  match s with
  | EmptyString => None
  | String a s' =>
      if Ascii.eqb a c then Some O
      else match index_of c s' with
           | Some i => Some (S i)
           | None => None
           end
  end.

(** Position of the last [c] in [s], if any. *)
Fixpoint rindex_of (c : ascii) (s : string) : option nat :=
  match s with
  | EmptyString => None
  | String a s' =>
      match rindex_of c s' with
      | Some i => Some (S i)
      | None => if Ascii.eqb a c then Some O else None
      end
  end.

Definition position (o : option nat) : Z :=
  match o with
  | Some i => Z.of_nat i
  | None => -1
  end.

(** [s.find(c)], [s.find(c, start)] and [s.rfind(c)]: [-1] when absent. *)
Definition find (c : ascii) (s : string) : Z := position (index_of c s).

Definition find_from (c : ascii) (start : Z) (s : string) : Z :=
  let k := bound start s in
  match index_of c (drop k s) with
  | Some i => Z.of_nat (k + i)
  | None => -1
  end.

Definition rfind (c : ascii) (s : string) : Z := position (rindex_of c s).

(** [s.startswith(p)] *)
Fixpoint startswith (p s : string) : bool :=
  match p, s with
  | EmptyString, _ => true
  | String _ _, EmptyString => false
  | String a p', String b s' => Ascii.eqb a b && startswith p' s'
  end.

(** [s.lstrip(chars)], the set [chars] given as a predicate. *)
Fixpoint lstrip (chars : ascii -> bool) (s : string) : string :=
  match s with
  | EmptyString => EmptyString
  | String a s' => if chars a then lstrip chars s' else s
  end.

(** [s.replace(c, "")] *)
Fixpoint remove (c : ascii) (s : string) : string :=
  match s with
  | EmptyString => EmptyString
  | String a s' => if Ascii.eqb a c then remove c s' else String a (remove c s')
  end.

(** [all(p(c) for c in s)] *)
Fixpoint all (p : ascii -> bool) (s : string) : bool :=
  match s with
  | EmptyString => true
  | String a s' => p a && all p s'
  end.

(** [s.split(sep)] for a one-character separator: never the empty list. *)
Fixpoint split (sep : ascii) (s : string) : list string :=
  match s with
  | EmptyString => [EmptyString]
  | String a s' =>
      if Ascii.eqb a sep then EmptyString :: split sep s'
      else match split sep s' with
           | w :: ws => String a w :: ws
           | [] => [String a EmptyString]
           end
  end.

(** [s.partition(c)]: the text before the first [c], whether [c] was found,
    and the text after it. *)
Definition partition (c : ascii) (s : string) : string * bool * string :=
  match index_of c s with
  | Some i => (take i s, true, drop (S i) s)
  | None => (s, false, EmptyString)
  end.

(** [s.rpartition(c)[2]]: the text after the last [c], or [s]. *)
Definition rpartition_tail (c : ascii) (s : string) : string :=
  match rindex_of c s with
  | Some i => drop (S i) s
  | None => s
  end.

(** [s.split(c, 1)], used as [a, b = s.split(c, 1)] under [c in s]. *)
Definition split_once (c : ascii) (s : string) : string * string :=
  match index_of c s with
  | Some i => (take i s, drop (S i) s)
  | None => (s, EmptyString)
  end.

Definition code (a : ascii) : N := N_of_ascii a.

(** Character classes, for code points below 256. *)
Definition is_ascii (a : ascii) : bool := (code a <? 128)%N.
Definition is_upper (a : ascii) : bool := (65 <=? code a)%N && (code a <=? 90)%N.
Definition is_lower (a : ascii) : bool := (97 <=? code a)%N && (code a <=? 122)%N.
Definition is_ascii_alpha (a : ascii) : bool := is_upper a || is_lower a.
Definition is_ascii_digit (a : ascii) : bool := (48 <=? code a)%N && (code a <=? 57)%N.
Definition is_hex_digit (a : ascii) : bool :=
  is_ascii_digit a
  || ((65 <=? code a)%N && (code a <=? 70)%N)
  || ((97 <=? code a)%N && (code a <=? 102)%N).

(** [c.lower()] on the characters it is applied to here (ASCII). *)
Definition lower_char (a : ascii) : ascii :=
  if is_upper a then ascii_of_N (code a + 32) else a.

Fixpoint lower (s : string) : string :=
  match s with
  | EmptyString => EmptyString
  | String a s' => String (lower_char a) (lower s')
  end.

(** [str(n)] for an [int]. *)
Definition of_Z (n : Z) : string := NilZero.string_of_int (Z.to_int n).

(** [int(s, 10)] for a string of ASCII digits. *)
Fixpoint decimal_value (acc : Z) (s : string) : Z :=
  match s with
  | EmptyString => acc
  | String a s' => decimal_value (10 * acc + (Z.of_N (code a) - 48)) s'
  end.

Definition hex_digit (d : Z) : ascii :=
  ascii_of_N (Z.to_N (if d <? 10 then 48 + d else 87 + d)).

(** ['%x' % n] for [0 <= n < 65536]. *)
Definition hex16 (n : Z) : string :=
  let digits := [n / 4096 mod 16; n / 256 mod 16; n / 16 mod 16; n mod 16] in
  let fix strip (ds : list Z) : list Z :=
    match ds with
    | 0 :: (_ :: _) as rest => strip rest
    | _ => ds
    end in
  string_of_list_ascii (map hex_digit (strip digits)).

Definition is_printable (a : ascii) : bool :=
  negb ((code a <? 32)%N
        || ((127 <=? code a)%N && (code a <=? 160)%N)
        || (code a =? 173)%N).

Definition hex_escape (a : ascii) : string :=
  String "\" (String "x" (String (hex_digit (Z.of_N (code a) / 16))
                          (String (hex_digit (Z.of_N (code a) mod 16)) EmptyString))).

(** [repr(s)]: between single quotes, or between double quotes (code 34)
    when [s] has a single quote and no double quote. *)
Definition repr (s : string) : string :=
  let quote : ascii :=
    if contains "'" s && negb (contains "034" s) then "034"%char else "'"%char in
  let fix body (t : string) : string :=
    match t with
    | EmptyString => EmptyString
    | String a t' =>
        (if Ascii.eqb a quote || Ascii.eqb a "\" then String "\" (String a EmptyString)
         else if Ascii.eqb a "009" then "\t"
         else if Ascii.eqb a "010" then "\n"
         else if Ascii.eqb a "013" then "\r"
         else if is_printable a then String a EmptyString
         else hex_escape a) +:+ body t'
    end in
  String quote (body s +:+ String quote EmptyString).

End Str.

(* ===================================================================== *)
(** * Python exceptions *)
(* ===================================================================== *)

Module Exc.

(** The classes that can reach the [except] clauses of the script: the
    built-in ones, and those of [requests.exceptions]. *)
Inductive exc_class : Set :=
  | BaseException
  | KeyboardInterrupt
  | Exception
  | ValueError
  | TypeError
  | AttributeError
  | OSError                 (* [IOError] is an alias of [OSError] *)
  | FileNotFoundError
  | PermissionError
  | IsADirectoryError
  | RequestException
  | HTTPError
  | ConnectionError         (* [requests.exceptions.ConnectionError] *)
  | ProxyError
  | SSLError
  | Timeout
  | ConnectTimeout
  | ReadTimeout
  | TooManyRedirects
  | MissingSchema
  | InvalidSchema
  | InvalidURL
  | ChunkedEncodingError.

Definition IOError : exc_class := OSError.

Definition exc_class_eqb (a b : exc_class) : bool :=
  match a, b with
  | BaseException, BaseException | KeyboardInterrupt, KeyboardInterrupt
  | Exception, Exception | ValueError, ValueError
  | TypeError, TypeError | AttributeError, AttributeError | OSError, OSError
  | FileNotFoundError, FileNotFoundError | PermissionError, PermissionError
  | IsADirectoryError, IsADirectoryError
  | RequestException, RequestException | HTTPError, HTTPError
  | ConnectionError, ConnectionError | ProxyError, ProxyError
  | SSLError, SSLError | Timeout, Timeout | ConnectTimeout, ConnectTimeout
  | ReadTimeout, ReadTimeout | TooManyRedirects, TooManyRedirects
  | MissingSchema, MissingSchema | InvalidSchema, InvalidSchema
  | InvalidURL, InvalidURL | ChunkedEncodingError, ChunkedEncodingError => true
  | _, _ => false
  end.

(** The direct base classes, as the [class] statements declare them. *)
Definition bases (c : exc_class) : list exc_class :=
  match c with
  | BaseException => []
  | KeyboardInterrupt | Exception => [BaseException]
  | ValueError | TypeError | AttributeError | OSError => [Exception]
  | FileNotFoundError | PermissionError | IsADirectoryError => [OSError]
  | RequestException => [IOError]
  | HTTPError | ConnectionError | Timeout | TooManyRedirects
  | ChunkedEncodingError => [RequestException]
  | ProxyError | SSLError => [ConnectionError]
  | ConnectTimeout => [ConnectionError; Timeout]
  | ReadTimeout => [Timeout]
  | MissingSchema | InvalidSchema | InvalidURL => [RequestException; ValueError]
  end.

(** [issubclass(c, d)]; the hierarchy is at most six classes deep. *)
Fixpoint issubclass_upto (depth : nat) (c d : exc_class) : bool :=
  exc_class_eqb c d
  || match depth with
     | O => false
     | S depth' => existsb (fun b => issubclass_upto depth' b d) (bases c)
     end.

Definition issubclass (c d : exc_class) : bool := issubclass_upto 6 c d.

End Exc.
Export Exc.

(** [requests.Response], as far as the script and [raise_for_status] read
    it: [content] is the body, already received when [get] returns. *)
Record Response : Type := mkResponse {
  status_code : Z;
  reason : string;
  response_url : string;
  content : list Byte.byte
}.

(** An exception instance: its class, what [str(e)] gives, and the
    [response] attribute that [requests] exceptions carry ([None] unless set). *)
Record exn : Type := mkExn {
  exc_type : exc_class;
  exc_str : string;
  exc_response : option Response
}.

Definition isinstance (e : exn) (c : exc_class) : bool :=
  issubclass (exc_type e) c.
#[global] Arguments isinstance : simpl never.

(** What evaluating a Python expression or statement ends in. *)
Inductive Outcome (A : Type) : Type :=
  | Return (a : A)
  | Raise (e : exn).
Arguments Return {A} a.
Arguments Raise {A} e.


(** Sequencing of computations that only return or raise. *)
Definition and_then {A B : Type} (o : Outcome A) (k : A -> Outcome B) : Outcome B :=
  match o with
  | Return a => k a
  | Raise e => Raise e
  end.

(** [raise ValueError(msg)] *)
Definition raise_ValueError {A : Type} (msg : string) : Outcome A :=
  Raise (mkExn ValueError msg None).

(* ===================================================================== *)
(** * [ipaddress.ip_address] *)
(* ===================================================================== *)

Module IpAddress.

Definition is_empty (s : string) : bool := String.eqb s EmptyString.

(** [_BaseV4._parse_octet]: [None] stands for its [ValueError]. *)
Definition parse_octet (octet_str : string) : option Z :=
  if is_empty octet_str then None
  else if negb (Str.all (fun c => Str.is_ascii c && Str.is_ascii_digit c) octet_str) then None
  else if Str.len octet_str >? 3 then None
  else if negb (String.eqb octet_str "0") && String.eqb (Str.take 1 octet_str) "0" then None
  else
    let octet_int := Str.decimal_value 0 octet_str in
    if octet_int >? 255 then None else Some octet_int.

(** [IPv4Address(address)._ip]: [None] stands for [AddressValueError]. *)
Definition IPv4Address (address : string) : option Z :=
  if Str.contains "/" address then None
  else if is_empty address then None
  else
    match map parse_octet (Str.split "." address) with
    | [Some a; Some b; Some c; Some d] => Some (((a * 256 + b) * 256 + c) * 256 + d)
    | _ => None
    end.

(** [_BaseV6._parse_hextet] succeeds: hexadecimal digits only, at most
    four of them, and [int(hextet_str, 16)] needs at least one. *)
Definition parse_hextet (hextet_str : string) : bool :=
  Str.all Str.is_hex_digit hextet_str
  && (Str.len hextet_str <=? 4)
  && negb (is_empty hextet_str).

(** [_BaseV6._split_scope_id]: the address part, [None] for its error. *)
Definition split_scope_id (ip_str : string) : option string :=
  let '(addr, sep, scope_id) := Str.partition "%" ip_str in
  if negb sep then Some addr
  else if is_empty scope_id || Str.contains "%" scope_id then None
  else Some addr.

(** The loop that looks for the one ["::"] strictly inside [parts]:
    [Some None] when there is none, [Some (Some i)] for the one at [i],
    [None] when there are two. *)
Definition find_skip_index (parts : list string) : option (option nat) :=
  fold_left
    (fun (found : option (option nat)) (i : nat) =>
       match found with
       | None => None
       | Some skip_index =>
           if is_empty (nth i parts EmptyString) then
             match skip_index with
             | Some _ => None
             | None => Some (Some i)
             end
           else Some skip_index
       end)
    (seq 1 (List.length parts - 2)) (Some None).

(** The last [n] elements of a list: [parts[-n:]] for [0 < n], nothing for [n = 0]. *)
Definition last_n {A : Type} (n : nat) (l : list A) : list A :=
  skipn (List.length l - n) l.

(** [_BaseV6._ip_int_from_string] succeeds. *)
Definition ip_int_from_string_v6 (ip_str : string) : bool :=
  if is_empty ip_str then false
  else
    let parts := Str.split ":" ip_str in
    if (List.length parts <? 3)%nat then false
    else
      let with_suffix : option (list string) :=
        if Str.contains "." (List.last parts EmptyString) then
          match IPv4Address (List.last parts EmptyString) with
          | None => None
          | Some ipv4_int =>
              Some (removelast parts
                      ++ [Str.hex16 (Z.land (Z.shiftr ipv4_int 16) 65535);
                          Str.hex16 (Z.land ipv4_int 65535)])%list
          end
        else Some parts in
      match with_suffix with
      | None => false
      | Some parts =>
          if (9 <? List.length parts)%nat then false
          else
            match find_skip_index parts with
            | None => false
            | Some (Some skip_index) =>
                let parts_hi := Z.of_nat skip_index in
                let parts_lo := Z.of_nat (List.length parts) - Z.of_nat skip_index - 1 in
                let first_empty := is_empty (nth 0 parts EmptyString) in
                let last_empty := is_empty (List.last parts EmptyString) in
                let parts_hi := if first_empty then parts_hi - 1 else parts_hi in
                if first_empty && negb (parts_hi =? 0) then false
                else
                  let parts_lo := if last_empty then parts_lo - 1 else parts_lo in
                  if last_empty && negb (parts_lo =? 0) then false
                  else if 8 - (parts_hi + parts_lo) <? 1 then false
                  else forallb parse_hextet (firstn (Z.to_nat parts_hi) parts)
                       && forallb parse_hextet (last_n (Z.to_nat parts_lo) parts)
            | Some None =>
                if negb (List.length parts =? 8)%nat then false
                else if is_empty (nth 0 parts EmptyString) then false
                else if is_empty (List.last parts EmptyString) then false
                else forallb parse_hextet parts
            end
      end.

(** [IPv6Address(address)] succeeds. *)
Definition IPv6Address (address : string) : bool :=
  if Str.contains "/" address then false
  else match split_scope_id address with
       | None => false
       | Some addr_str => ip_int_from_string_v6 addr_str
       end.

Inductive ip_version : Set := IPv4 | IPv6.

(** [ipaddress.ip_address(address)]: which class the result has. *)
Definition ip_address (address : string) : Outcome ip_version :=
  match IPv4Address address with
  | Some _ => Return IPv4
  | None =>
      if IPv6Address address then Return IPv6
      else raise_ValueError
             (Str.repr address +:+ " does not appear to be an IPv4 or IPv6 address")
  end.

End IpAddress.

(* ===================================================================== *)
(** * [urllib.parse.urlparse] *)
(* ===================================================================== *)

Module UrlParse.

(** [uses_params] *)
Definition uses_params : list string :=
  [""; "ftp"; "hdl"; "prospero"; "http"; "imap"; "https"; "shttp"; "rtsp";
   "rtspu"; "sip"; "sips"; "mms"; "sftp"; "tel"].

(** [c in scheme_chars] *)
Definition scheme_chars (c : ascii) : bool :=
  Str.is_lower c || Str.is_upper c || Str.is_ascii_digit c
  || Ascii.eqb c "+" || Ascii.eqb c "-" || Ascii.eqb c ".".

(** [c in _WHATWG_C0_CONTROL_OR_SPACE] *)
Definition WHATWG_C0_CONTROL_OR_SPACE (c : ascii) : bool := (Str.code c <=? 32)%N.

(** [_UNSAFE_URL_BYTES_TO_REMOVE] *)
Definition UNSAFE_URL_BYTES_TO_REMOVE : list ascii := ["009"; "013"; "010"]%char.

Record SplitResult : Type := mkSplitResult {
  split_scheme : string;
  split_netloc : string;
  split_path : string;
  split_query : string;
  split_fragment : string
}.

Record ParseResult : Type := mkParseResult {
  scheme : string;
  netloc : string;
  path : string;
  params : string;
  query : string;
  fragment : string
}.

(** [_splitparams(url)] *)
Definition _splitparams (url : string) : string * string :=
  if Str.contains "/" url then
    let i := Str.find_from ";" (Str.rfind "/" url) url in
    if i <? 0 then (url, EmptyString)
    else (Str.slice_to i url, Str.slice_from (i + 1) url)
  else
    let i := Str.find ";" url in
    (Str.slice_to i url, Str.slice_from (i + 1) url).

(** [_splitnetloc(url, start)] *)
Definition _splitnetloc (url : string) (start : Z) : string * string :=
  let delim :=
    fold_left
      (fun (delim : Z) (c : ascii) =>
         let wdelim := Str.find_from c start url in
         if wdelim >=? 0 then Z.min delim wdelim else delim)
      ["/"; "?"; "#"]%char (Str.len url) in
  (Str.slice start delim url, Str.slice_from delim url).

(** Whether a character has a compatibility decomposition that contains one
    of [/?#@:].  No code point below 256 has. *)
Definition nfkc_yields_delimiter (c : ascii) : bool := false.

(** [_checknetloc(netloc)] *)
Definition _checknetloc (netloc : string) : Outcome unit :=
  if IpAddress.is_empty netloc || Str.all Str.is_ascii netloc then Return tt
  else
    let n := Str.remove "?" (Str.remove "#" (Str.remove ":" (Str.remove "@" netloc))) in
    if negb (Str.all (fun c => negb (nfkc_yields_delimiter c)) n) then
      raise_ValueError ("netloc '" +:+ netloc +:+ "' contains invalid "
                        +:+ "characters under NFKC normalization")
    else Return tt.

(** [re.match(r"\Av[a-fA-F0-9]+\..+\Z", hostname)] is a match: a [v],
    hexadecimal digits (at least one), a dot, and at least one more
    character, none of them a newline. *)
Definition matches_IPvFuture (hostname : string) : bool :=
  match hostname with
  | String "v" rest =>
      let after_hex := Str.lstrip Str.is_hex_digit rest in
      negb (String.eqb after_hex rest)
      && match after_hex with
         | String "." tail =>
             negb (IpAddress.is_empty tail) && negb (Str.contains "010" tail)
         | _ => false
         end
  | _ => false
  end.

(** [_check_bracketed_host(hostname)] *)
Definition _check_bracketed_host (hostname : string) : Outcome unit :=
  if Str.startswith "v" hostname then
    if negb (matches_IPvFuture hostname)
    then raise_ValueError "IPvFuture address is invalid"
    else Return tt
  else
    and_then (IpAddress.ip_address hostname) (fun ip =>
      match ip with
      | IpAddress.IPv4 => raise_ValueError "An IPv4 address cannot be in brackets"
      | IpAddress.IPv6 => Return tt
      end).

(** [_check_bracketed_netloc(netloc)] *)
Definition _check_bracketed_netloc (netloc : string) : Outcome unit :=
  let hostname_and_port := Str.rpartition_tail "@" netloc in
  let '(before_bracket, have_open_br, bracketed) := Str.partition "[" hostname_and_port in
  if have_open_br then
    if negb (IpAddress.is_empty before_bracket) then raise_ValueError "Invalid IPv6 URL"
    else
      let '(hostname, _, port) := Str.partition "]" bracketed in
      if negb (IpAddress.is_empty port) && negb (Str.startswith ":" port)
      then raise_ValueError "Invalid IPv6 URL"
      else _check_bracketed_host hostname
  else
    let '(hostname, _, port) := Str.partition ":" hostname_and_port in
    _check_bracketed_host hostname.

(** The statements of [urlsplit] that look for a scheme: the scheme found
    (or none) and the rest of the URL.
<<
    i = url.find(':')
    if i > 0 and url[0].isascii() and url[0].isalpha():
        for c in url[:i]:
            if c not in scheme_chars:
                break
        else:
            scheme, url = url[:i].lower(), url[i+1:]
>> *)
Definition take_scheme (url : string) : string * string :=
  let i := Str.find ":" url in
  if (i >? 0)
     && match url with
        | String c _ => Str.is_ascii c && Str.is_ascii_alpha c
        | EmptyString => false
        end
  then
    if Str.all scheme_chars (Str.slice_to i url)
    then (Str.lower (Str.slice_to i url), Str.slice_from (i + 1) url)
    else (EmptyString, url)
  else (EmptyString, url).

(** The statements of [urlsplit] that look for a network location: the
    location found (or none) and the rest of the URL.
<<
    if url[:2] == '//':
        netloc, url = _splitnetloc(url, 2)
        if (('[' in netloc and ']' not in netloc) or
                (']' in netloc and '[' not in netloc)):
            raise ValueError("Invalid IPv6 URL")
        if '[' in netloc and ']' in netloc:
            _check_bracketed_netloc(netloc)
>> *)
Definition take_netloc (url : string) : Outcome (string * string) :=
  if String.eqb (Str.slice_to 2 url) "//" then
    let '(netloc, url) := _splitnetloc url 2 in
    if (Str.contains "[" netloc && negb (Str.contains "]" netloc))
       || (Str.contains "]" netloc && negb (Str.contains "[" netloc))
    then raise_ValueError "Invalid IPv6 URL"
    else
      and_then
        (if Str.contains "[" netloc && Str.contains "]" netloc
         then _check_bracketed_netloc netloc
         else Return tt)
        (fun _ => Return (netloc, url))
  else Return (EmptyString, url).

(** The statements of [urlsplit] that cut off the fragment and the query:
    what is left of the URL, the query and the fragment.
<<
    if allow_fragments and '#' in url:
        url, fragment = url.split('#', 1)
    if '?' in url:
        url, query = url.split('?', 1)
>> *)
Definition take_fragment_and_query (url : string) : string * string * string :=
  let '(url, fragment) :=
    if Str.contains "#" url then Str.split_once "#" url else (url, EmptyString) in
  let '(url, query) :=
    if Str.contains "?" url then Str.split_once "?" url else (url, EmptyString) in
  (url, query, fragment).

(** [urlsplit(url)], with the defaults [scheme=''] and [allow_fragments=True]
    that [urlparse(url)] passes on. *)
Definition urlsplit (url : string) : Outcome SplitResult :=
  let url := Str.lstrip WHATWG_C0_CONTROL_OR_SPACE url in
  let url := fold_left (fun u b => Str.remove b u) UNSAFE_URL_BYTES_TO_REMOVE url in
  let '(scheme, url) := take_scheme url in
  and_then (take_netloc url) (fun '(netloc, url) =>
    let '(url, query, fragment) := take_fragment_and_query url in
    and_then (_checknetloc netloc) (fun _ =>
      Return (mkSplitResult scheme netloc url query fragment))).

(** [urlparse(url)] *)
Definition urlparse (url : string) : Outcome ParseResult :=
  and_then (urlsplit url) (fun splitresult =>
    let '(mkSplitResult scheme netloc url query fragment) := splitresult in
    let '(url, params) :=
      if existsb (String.eqb scheme) uses_params && Str.contains ";" url
      then _splitparams url
      else (url, EmptyString) in
    Return (mkParseResult scheme netloc url params query fragment)).

End UrlParse.

(* ===================================================================== *)
(** * [os.path.basename] (posixpath) *)
(* ===================================================================== *)

Module PosixPath.

(** [basename(p)] *)
Definition basename (p : string) : string :=
  let i := Str.rfind "/" p + 1 in
  Str.slice_from i p.

End PosixPath.

(* ===================================================================== *)
(** * The world of the script and its external collaborators *)
(* ===================================================================== *)

(** A cookie, and [http.cookiejar.CookieJar]: the script only hands the jar
    over, asks for its [len] and tests it for emptiness. *)
Record Cookie : Type := mkCookie {
  cookie_domain : string;
  cookie_name : string;
  cookie_value : string
}.

Definition CookieJar : Type := list Cookie.

(** A [requests.Session]: the two attributes the script assigns. *)
Record Session : Type := mkSession {
  cookies : CookieJar;
  headers : list (string * string)
}.

(** A call [session.get(url, allow_redirects=...)]: its arguments, and the
    cookies and headers the session holds when it is called.  Which of its
    cookies the session puts on the wire is its own choice, by the domain
    of each request. *)
Record Request : Type := mkRequest {
  request_url : string;
  request_cookies : CookieJar;
  request_headers : list (string * string);
  allow_redirects : bool
}.

(** The calls the script makes to the outside, in the order it makes them. *)
Inductive Call : Type :=
  | browsercookie_load_call
  | Session_open_call
  | Session_close_call
  | session_get_call (request : Request)
  | open_call (file : string) (mode : string)
  | write_call (file : string) (data : list Byte.byte)
  | close_call (file : string).

(** The state the script acts on: the lines printed so far (one entry for
    each [print]), the content of the files, and the calls made so far. *)
Record World : Type := mkWorld {
  stdout : list string;
  files : gmap string (list Byte.byte);
  calls : list Call
}.

(** What the collaborators answer.
    - [browsercookie_load]: the outcome of [browsercookie.load()].
    - [session_get]: the outcome of [session.get] for a request.
    - [fs_open]: the exception [open(file, 'wb')] raises, if it fails.
    - [fs_write]: for [f.write(data)] and the flush when [f] is closed, the
      number of bytes that reached the file and the exception raised, if
      the write fails. *)
Record Env : Type := mkEnv {
  browsercookie_load : Outcome CookieJar;
  session_get : Request -> Outcome Response;
  fs_open : string -> option exn;
  fs_write : string -> list Byte.byte -> option (nat * exn)
}.

(** Computations of the script: they read and change the world, and return
    or raise. *)
Definition M (A : Type) : Type := World -> Outcome A * World.

Definition ret {A : Type} (a : A) : M A := fun w => (Return a, w).

Definition raise {A : Type} (e : exn) : M A := fun w => (Raise e, w).

Definition bind {A B : Type} (m : M A) (k : A -> M B) : M B :=
  fun w =>
    match m w with
    | (Return a, w') => k a w'
    | (Raise e, w') => (Raise e, w')
    end.

Notation "x <- m ;; k" := (bind m (fun x => k))
  (at level 20, m at level 99, k at level 200, format "'[v' x  <-  m  ;; '/' k ']'").
Notation "m ;; k" := (bind m (fun _ => k))
  (at level 100, k at level 200, right associativity, format "'[v' m  ;; '/' k ']'").

Definition lift {A : Type} (o : Outcome A) : M A := fun w => (o, w).

(** [print(line)] *)
Definition print (line : string) : M unit :=
  fun w => (Return tt, mkWorld (stdout w ++ [line])%list (files w) (calls w)).

Definition record_call (c : Call) : M unit :=
  fun w => (Return tt, mkWorld (stdout w) (files w) (calls w ++ [c])%list).

Definition set_file (file : string) (data : list Byte.byte) : M unit :=
  fun w => (Return tt, mkWorld (stdout w) (<[file := data]> (files w)) (calls w)).

Definition append_file (file : string) (data : list Byte.byte) : M unit :=
  fun w =>
    (Return tt,
     mkWorld (stdout w)
             (<[file := (default [] (files w !! file) ++ data)%list]> (files w))
             (calls w)).

(** [try: body] followed by [except] clauses, tried in order: the first
    clause whose class the exception is an instance of handles it; an
    exception that no clause matches, or that a handler raises, goes on. *)
Fixpoint handle {A : Type} (clauses : list (exc_class * (exn -> M A))) (e : exn) : M A :=
  match clauses with
  | [] => raise e
  | (cls, handler) :: rest =>
      if isinstance e cls then handler e else handle rest e
  end.

Definition try_except {A : Type} (body : M A)
    (clauses : list (exc_class * (exn -> M A))) : M A :=
  fun w =>
    match body w with
    | (Return a, w') => (Return a, w')
    | (Raise e, w') => handle clauses e w'
    end.

(** The exit of a [with] block: [cleanup] runs whatever [body] ends in. *)
Definition with_exit {A : Type} (body : M A) (cleanup : M unit) : M A :=
  fun w =>
    match body w with
    | (o, w') =>
        match cleanup w' with
        | (Return _, w'') => (o, w'')
        | (Raise e, w'') => (Raise e, w'')
        end
    end.

(** [with open(file, 'wb') as f: body]: the file is created or emptied when
    it is opened, and closed when the block is left. *)
Definition with_open_wb {A : Type} (env : Env) (file : string) (body : M A) : M A :=
  record_call (open_call file "wb") ;;
  match fs_open env file with
  | Some e => raise e
  | None => set_file file [] ;; with_exit body (record_call (close_call file))
  end.

(** [f.write(data)] on the file opened as [file]. *)
Definition file_write (env : Env) (file : string) (data : list Byte.byte) : M unit :=
  record_call (write_call file data) ;;
  match fs_write env file data with
  | None => append_file file data
  | Some (written, e) => append_file file (firstn written data) ;; raise e
  end.

(* ===================================================================== *)
(** * The part of [requests] the script uses *)
(* ===================================================================== *)

Module Requests.

(** [requests.utils.default_headers()]; the release number in the
    [User-Agent] is the one of the installed release. *)
Definition default_headers : list (string * string) :=
  [("User-Agent", "python-requests/2.31.0");
   ("Accept-Encoding", "gzip, deflate");
   ("Accept", "*/*");
   ("Connection", "keep-alive")].

(** [with requests.Session() as session: body] *)
Definition with_Session {A : Type} (body : Session -> M A) : M A :=
  record_call Session_open_call ;;
  with_exit (body (mkSession [] default_headers)) (record_call Session_close_call).

(** [session.get(url, allow_redirects=allow_redirects)] *)
Definition get (env : Env) (session : Session) (url : string)
    (allow_redirects : bool) : M Response :=
  let request := mkRequest url (cookies session) (headers session) allow_redirects in
  record_call (session_get_call request) ;;
  lift (session_get env request).

(** [response.raise_for_status()] *)
Definition raise_for_status (response : Response) : M unit :=
  let http_error_msg :=
    if (400 <=? status_code response) && (status_code response <? 500) then
      Str.of_Z (status_code response) +:+ " Client Error: " +:+ reason response
      +:+ " for url: " +:+ response_url response
    else if (500 <=? status_code response) && (status_code response <? 600) then
      Str.of_Z (status_code response) +:+ " Server Error: " +:+ reason response
      +:+ " for url: " +:+ response_url response
    else EmptyString in
  if negb (IpAddress.is_empty http_error_msg)
  then raise (mkExn HTTPError http_error_msg (Some response))
  else ret tt.

End Requests.

(* ===================================================================== *)
(** * The script *)
(* ===================================================================== *)

(** The line feed that starts some of the messages. *)
Definition LF : string := String "010" EmptyString.

Definition USER_AGENT : string :=
  "Mozilla/5.0 (X11; Linux x86_64; rv:109.0) Gecko/20100101 Firefox/115.0".

(** The lines the script prints. *)
Module Msg.

Definition attempting : string :=
  "Attempting to load cookies from browsers (Chrome, Firefox, etc.)...".
Definition no_cookies : string := "Warning: No cookies were found or loaded.".
Definition loaded (n : Z) : string :=
  "Successfully loaded " +:+ Str.of_Z n +:+ " cookies.".
Definition error_loading (e : exn) : string := "Error loading cookies: " +:+ exc_str e.
Definition can_happen : string :=
  "This can happen if browsers are not found or if decryption fails.".
Definition proceeding : string := "Proceeding without cookies...".
Definition downloading (url : string) : string := LF +:+ "Downloading: " +:+ url.
Definition success (output_file : string) : string :=
  LF +:+ "Success! Content saved to: " +:+ output_file.
Definition http_error (status : Z) (reason : string) : string :=
  LF +:+ "HTTP Error: " +:+ Str.of_Z status +:+ " " +:+ reason.
Definition could_be : string :=
  "This could be due to missing/invalid cookies or a bad URL.".
Definition error_occurred (e : exn) : string := LF +:+ "An error occurred: " +:+ exc_str e.
Definition error_writing (output_file : string) (e : exn) : string :=
  LF +:+ "Error writing to file " +:+ output_file +:+ ": " +:+ exc_str e.
Definition unexpected (e : exn) : string :=
  LF +:+ "An unexpected error occurred: " +:+ exc_str e.
Definition no_filename : string := "No filename in URL. Defaulting to 'index.html'".
Definition could_not_parse (e : exn) : string :=
  "Could not parse URL to get filename: " +:+ exc_str e
  +:+ ". Defaulting to 'index.html'".

End Msg.

(** The truth value of a [CookieJar] (its [len] is not zero) and of a
    [str] (it is not empty). *)
Definition jar_truthy (jar : CookieJar) : bool :=
  negb (Z.of_nat (List.length jar) =? 0).

Definition str_truthy (s : string) : bool := negb (String.eqb s EmptyString).

(** [e.response.status_code] and [e.response.reason], read in the f-string
    of the [HTTPError] handler: an [AttributeError] when [e.response] is
    [None]. *)
Definition response_of (e : exn) : M Response :=
  match exc_response e with
  | Some response => ret response
  | None =>
      raise (mkExn AttributeError
               "'NoneType' object has no attribute 'status_code'" None)
  end.

(** Lines 23-37: the [try] statement that loads the cookies.  The result is
    the value of [cookie_jar] after it. *)
Definition load_cookies (env : Env) : M (option CookieJar) :=
  try_except
    (cookie_jar <- (record_call browsercookie_load_call ;;
                    lift (browsercookie_load env)) ;;
     (if negb (jar_truthy cookie_jar)
      then print Msg.no_cookies
      else print (Msg.loaded (Z.of_nat (List.length cookie_jar)))) ;;
     ret (Some cookie_jar))
    [(Exception, fun e =>
        print (Msg.error_loading e) ;;
        print Msg.can_happen ;;
        print Msg.proceeding ;;
        ret None)].

(** Lines 72-80: the [except] clauses of the download, in their order. *)
Definition download_handlers (output_file : string)
    : list (exc_class * (exn -> M unit)) :=
  [(HTTPError, fun e =>
      response <- response_of e ;;
      print (Msg.http_error (status_code response) (reason response)) ;;
      print Msg.could_be);
   (RequestException, fun e => print (Msg.error_occurred e));
   (IOError, fun e => print (Msg.error_writing output_file e));
   (Exception, fun e => print (Msg.unexpected e))].

(** Lines 55-80: the [try] statement that requests the URL and saves the
    body of the response. *)
Definition fetch_and_save (env : Env) (session : Session)
    (url output_file : string) : M unit :=
  try_except
    (response <- Requests.get env session url true ;;
     Requests.raise_for_status response ;;
     with_open_wb env output_file
       (file_write env output_file (content response)) ;;
     print (Msg.success output_file))
    (download_handlers output_file).

(** Lines 41-80: the [with requests.Session() as session] block. *)
Definition download_session (env : Env) (cookie_jar : option CookieJar)
    (url output_file : string) : M unit :=
  Requests.with_Session (fun session =>
    let session :=
      match cookie_jar with
      | Some jar =>
          if jar_truthy jar then mkSession jar (headers session) else session
      | None => session
      end in
    let session := mkSession (cookies session) [("User-Agent", USER_AGENT)] in
    print (Msg.downloading url) ;;
    fetch_and_save env session url output_file).

(** [download_with_cookies(url, output_file)] *)
Definition download_with_cookies (env : Env) (url output_file : string) : M unit :=
  print Msg.attempting ;;
  cookie_jar <- load_cookies env ;;
  download_session env cookie_jar url output_file.

(** [get_output_filename(url, provided_filename)] *)
Definition get_output_filename (url : string) (provided_filename : option string)
    : M string :=
  let guess_from_url : M string :=
    try_except
      (parsed <- lift (UrlParse.urlparse url) ;;
       let path := UrlParse.path parsed in
       let filename := PosixPath.basename path in
       if negb (str_truthy filename) then
         print Msg.no_filename ;;
         ret "index.html"
       else ret filename)
      [(Exception, fun e =>
          print (Msg.could_not_parse e) ;;
          ret "index.html")] in
  match provided_filename with
  | Some name => if str_truthy name then ret name else guess_from_url
  | None => guess_from_url
  end.

(** What [parser.parse_args()] gives: [args.url] and [args.output]. *)
Record Namespace : Type := mkNamespace {
  args_url : string;
  args_output : option string
}.

(** Lines 128-133 of the [__main__] block, after the arguments are parsed. *)
Definition main (env : Env) (args : Namespace) : M unit :=
  let target_url := args_url args in
  output_filename <- get_output_filename target_url (args_output args) ;;
  download_with_cookies env target_url output_filename.

(** The exit status of the interpreter: 0 when the script runs to its end,
    1 after an exception that nothing caught, 130 when that exception is a
    [KeyboardInterrupt]. *)
Definition exit_status {A : Type} (o : Outcome A) : Z :=
  match o with
  | Return _ => 0
  | Raise e => if isinstance e KeyboardInterrupt then 130 else 1
  end.

(** A world in which nothing has happened yet. *)
Definition initial_world : World := mkWorld [] ∅ [].

(* ===================================================================== *)
(** * Vocabulary of the properties *)
(* ===================================================================== *)

(** An error, as opposed to an interruption: an instance of [Exception]. *)
Definition is_error (e : exn) : bool := isinstance e Exception.

(** The failures of the HTTP transport at the network level: no connection
    (which is how a failed name resolution shows), a TLS failure
    ([SSLError] derives from [ConnectionError]), a timeout. *)
Definition network_failure (e : exn) : bool :=
  isinstance e ConnectionError || isinstance e Timeout.

(** The cookies the session ends up with: those of the jar when it could be
    loaded, none otherwise. *)
Definition loaded_cookies (env : Env) : CookieJar :=
  match browsercookie_load env with
  | Return jar => jar
  | Raise _ => []
  end.

(** Cookie loading was cut short by something that is not an error. *)
Definition load_interrupted (env : Env) : bool :=
  match browsercookie_load env with
  | Return _ => false
  | Raise e => negb (is_error e)
  end.

(** The request the script is meant to send for [url]. *)
Definition GET (cookie_jar : CookieJar) (url : string) : Request :=
  mkRequest url cookie_jar [("User-Agent", USER_AGENT)] true.

(** The requests sent and the files opened among some calls. *)
Definition requests_sent (cs : list Call) : list Request :=
  flat_map (fun c => match c with session_get_call r => [r] | _ => [] end) cs.

Definition files_opened (cs : list Call) : list string :=
  flat_map (fun c => match c with open_call f _ => [f] | _ => [] end) cs.

(** The lines that end a run of the downloader: the confirmation, or the
    report of one of the four kinds of failure. *)
Inductive final_report (output_file : string) : list string -> Prop :=
  | report_saved :
      final_report output_file [Msg.success output_file]
  | report_HttpStatusError (status : Z) (reason : string) :
      final_report output_file [Msg.http_error status reason; Msg.could_be]
  | report_NetworkError (e : exn) :
      final_report output_file [Msg.error_occurred e]
  | report_FileWriteError (e : exn) :
      final_report output_file [Msg.error_writing output_file e]
  | report_UnknownError (e : exn) :
      final_report output_file [Msg.unexpected e].

(** An error the [except] clauses of the download can report: an
    [HTTPError] has to come with its response, which the report quotes. *)
Definition reportable (e : exn) : Prop :=
  is_error e = true
  /\ (isinstance e HTTPError = true -> exc_response e <> None).

(** The failures the script expects of its collaborators: whatever they
    raise is an error, and one that can be reported. *)
Record expected_failures (env : Env) : Prop := {
  load_errors : forall e, browsercookie_load env = Raise e -> is_error e = true;
  get_errors : forall request e, session_get env request = Raise e -> reportable e;
  open_errors : forall file e, fs_open env file = Some e -> reportable e;
  write_errors : forall file data n e,
      fs_write env file data = Some (n, e) -> reportable e
}.

(** The final segment of a path: what follows its last [/]. *)
Definition final_segment (path : string) : string :=
  List.last (Str.split "/" path) EmptyString.


(** The world after one more line has been printed. *)
Definition printed (line : string) (w : World) : World :=
  mkWorld (stdout w ++ [line])%list (files w) (calls w).

(** The world after one more call has been made. *)
Definition called (c : Call) (w : World) : World :=
  mkWorld (stdout w) (files w) (calls w ++ [c])%list.

(** An outcome whose only possible failure is a [ValueError]. *)
Definition raises_only_ValueError {A : Type} (o : Outcome A) : Prop :=
  forall e, o = Raise e -> exc_type e = ValueError.

(** The characters that end the network location of a URL. *)
Definition netloc_delimiter (c : ascii) : bool :=
  Ascii.eqb c "/" || Ascii.eqb c "?" || Ascii.eqb c "#".

(** The characters that start the query or the fragment of a URL. *)
Definition query_or_fragment_mark (c : ascii) : bool :=
  Ascii.eqb c "?" || Ascii.eqb c "#".

(** The text before the first character that [stop] accepts. *)
Fixpoint before (stop : ascii -> bool) (s : string) : string :=
  match s with
  | EmptyString => EmptyString
  | String a s' => if stop a then EmptyString else String a (before stop s')
  end.

(** The text from the first character that [stop] accepts on. *)
Definition from (stop : ascii -> bool) (s : string) : string :=
  Str.lstrip (fun c => negb (stop c)) s.


(** What [urlsplit] starts from: the URL without the leading control
    characters and spaces and without tabs and line ends. *)
Definition cleaned (url : string) : string :=
  fold_left (fun u b => Str.remove b u) UrlParse.UNSAFE_URL_BYTES_TO_REMOVE
    (Str.lstrip UrlParse.WHATWG_C0_CONTROL_OR_SPACE url).

(** The cookies of the session, for a value of [cookie_jar]. *)
Definition session_cookies (cookie_jar : option CookieJar) : CookieJar :=
  match cookie_jar with
  | Some jar => jar
  | None => []
  end.

(** The world after some lines have been printed. *)
Definition printed_lines (lines : list string) (w : World) : World :=
  mkWorld (stdout w ++ lines)%list (files w) (calls w).

(** The status codes that [raise_for_status] takes for an error. *)
Definition error_status (status : Z) : bool :=
  (400 <=? status) && (status <? 600).

(** Some step of the download fails: the request, the status check, the
    opening of the file or the writing of the body. *)
Definition download_fails (env : Env) (url output_file : string) : bool :=
  match session_get env (GET (loaded_cookies env) url) with
  | Raise _ => true
  | Return response =>
      error_status (status_code response)
      || match fs_open env output_file with
         | Some _ => true
         | None =>
             match fs_write env output_file (content response) with
             | Some _ => true
             | None => false
             end
         end
  end.

(** The reports of a failure, among the lines that end a run. *)
Definition failure_report (output_file : string) (lines : list string) : Prop :=
  final_report output_file lines /\ lines <> [Msg.success output_file].

(** The world after a file has been given a content. *)
Definition with_file (file : string) (data : list Byte.byte) (w : World) : World :=
  mkWorld (stdout w) (<[file := data]> (files w)) (calls w).

(** What [str] gives for the [HTTPError] that [raise_for_status] raises. *)
Definition exc_str_of_status (response : Response) : string :=
  if (400 <=? status_code response) && (status_code response <? 500) then
    Str.of_Z (status_code response) +:+ " Client Error: " +:+ reason response
    +:+ " for url: " +:+ response_url response
  else
    Str.of_Z (status_code response) +:+ " Server Error: " +:+ reason response
    +:+ " for url: " +:+ response_url response.

(** The response whose body the run sets out to save: the one the request
    returns, when the cookie loading was not interrupted and the status is
    not taken for an error. *)
Definition response_to_save (env : Env) (url : string) : option Response :=
  if load_interrupted env then None
  else match session_get env (GET (loaded_cookies env) url) with
       | Return response =>
           if error_status (status_code response) then None else Some response
       | Raise _ => None
       end.

(** The calls of a run up to its request. *)
Definition calls_up_to_request (env : Env) (url : string) : list Call :=
  [browsercookie_load_call; Session_open_call;
   session_get_call (GET (loaded_cookies env) url)].

(** The name there is in a URL: the final segment of its parsed path, when
    the URL can be parsed and that segment is not empty. *)
Definition name_in_url (url : string) : option string :=
  match UrlParse.urlparse url with
  | Return parsed =>
      if str_truthy (final_segment (UrlParse.path parsed))
      then Some (final_segment (UrlParse.path parsed))
      else None
  | Raise _ => None
  end.

(** The name [get_output_filename] has to go by: the provided one when it
    is not empty, else the one in the URL; none when it has to fall back
    on ["index.html"]. *)
Definition found_name (url : string) (provided_filename : option string)
    : option string :=
  match provided_filename with
  | Some name => if str_truthy name then Some name else name_in_url url
  | None => name_in_url url
  end.

(** Sample collaborators, on which the properties are tried. *)
Module Sample.

Definition hello : list Byte.byte := list_byte_of_string "hello".

Definition one_cookie : CookieJar := [mkCookie "example.com" "session" "abc"].

Definition disk_ok : string -> option exn := fun _ => None.
Definition write_ok : string -> list Byte.byte -> option (nat * exn) := fun _ _ => None.

(** A server that answers every request with the same status and body. *)
Definition server (status : Z) (reason : string) (body : list Byte.byte) : Env :=
  mkEnv (Return one_cookie)
        (fun request => Return (mkResponse status reason (request_url request) body))
        disk_ok write_ok.

(** The same server, seen from a machine whose cookie stores cannot be read. *)
Definition locked_store : exn :=
  mkExn PermissionError "[Errno 13] Permission denied: 'Cookies'" None.

Definition server_without_cookies (status : Z) (reason : string)
    (body : list Byte.byte) : Env :=
  mkEnv (Raise locked_store)
        (fun request => Return (mkResponse status reason (request_url request) body))
        disk_ok write_ok.

(** A network on which every request times out. *)
Definition timed_out : exn :=
  mkExn ConnectTimeout "HTTPConnectionPool(host='example.com', port=80): timed out" None.

Definition dead_network : Env :=
  mkEnv (Return one_cookie) (fun _ => Raise timed_out) disk_ok write_ok.

(** A server that answers with status 200, seen from a directory in which
    no file can be created. *)
Definition permission_denied : exn :=
  mkExn PermissionError "[Errno 13] Permission denied: 'data.zip'" None.

Definition read_only_directory : Env :=
  mkEnv (Return one_cookie)
        (fun request => Return (mkResponse 200 "OK" (request_url request) hello))
        (fun _ => Some permission_denied) write_ok.

(** The same server, seen from a disk that is full after two bytes. *)
Definition no_space_left : exn :=
  mkExn OSError "[Errno 28] No space left on device" None.

Definition full_disk : Env :=
  mkEnv (Return one_cookie)
        (fun request => Return (mkResponse 200 "OK" (request_url request) hello))
        disk_ok (fun _ _ => Some (2%nat, no_space_left)).

(** A transport that fails with a given exception on every request, with
    an empty cookie jar. *)
Definition failing_transport (e : exn) : Env :=
  mkEnv (Return []) (fun _ => Raise e) disk_ok write_ok.

(** What [requests] raises for a URL without scheme, when the bundle of
    certificates is missing, and two failures it does not raise itself. *)
Definition missing_schema : exn :=
  mkExn MissingSchema
    "Invalid URL 'example.com/data.zip': No scheme supplied." None.

Definition missing_ca_bundle : exn :=
  mkExn OSError "Could not find a suitable TLS CA certificate bundle" None.

Definition bare_http_error : exn := mkExn HTTPError "502 Bad Gateway" None.

Definition type_error : exn := mkExn TypeError "expected string or bytes-like object" None.

End Sample.

(* ===================================================================== *)
(** * Properties of [get_output_filename] *)
(* ===================================================================== *)

Section FilenameResolver.

Implicit Types (url name : string) (w : World).

Lemma str_truthy_true name : str_truthy name = true <-> name <> EmptyString.
Proof.
  unfold str_truthy. destruct (String.eqb_spec name EmptyString) as [->|Hne]; simpl.
  - split; [discriminate | congruence].
  - split; auto.
Qed.

Lemma str_truthy_false name : str_truthy name = false <-> name = EmptyString.
Proof.
  unfold str_truthy. destruct (String.eqb_spec name EmptyString) as [->|Hne]; simpl.
  - split; auto.
  - split; [discriminate | congruence].
Qed.

(** The part of [get_output_filename] that runs when no name is given. *)
Lemma get_output_filename_without_name url w :
  get_output_filename url None w = get_output_filename url (Some EmptyString) w.
Proof. reflexivity. Qed.

Lemma provided_filename_is_returned_aux url name w :
  name <> EmptyString ->
  get_output_filename url (Some name) w = (Return name, w).
Proof.
  intros Hname. apply str_truthy_true in Hname.
  unfold get_output_filename. rewrite Hname. reflexivity.
Qed.

(** C5.  For every URL and every non-empty provided filename,
    [get_output_filename] returns the provided filename unchanged, whatever
    the URL is; it does so without any effect on the world. *)
Theorem provided_filename_is_returned url name w :
  name <> EmptyString ->
  get_output_filename url (Some name) w = (Return name, w).
Proof.
  intros Hname. unfold get_output_filename.
  destruct (str_truthy name) eqn:Htruthy; [reflexivity|].
  apply str_truthy_false in Htruthy. contradiction.
Qed.

Lemma provided_filename_is_returned_witness :
  get_output_filename "http://example.com/data.zip" (Some "x") initial_world
  = (Return "x", initial_world).
Proof. apply provided_filename_is_returned. discriminate. Defined.


Lemma raises_only_ValueError_Return {A : Type} (a : A) :
  raises_only_ValueError (Return a).
Proof. intros e He. discriminate. Qed.

Lemma raises_only_ValueError_raise {A : Type} (msg : string) :
  raises_only_ValueError (@raise_ValueError A msg).
Proof. intros e He. injection He as <-. reflexivity. Qed.

Lemma raises_only_ValueError_and_then {A B : Type} (o : Outcome A) (k : A -> Outcome B) :
  raises_only_ValueError o ->
  (forall a, raises_only_ValueError (k a)) ->
  raises_only_ValueError (and_then o k).
Proof.
  intros Ho Hk e. destruct o as [a|e']; simpl.
  - apply Hk.
  - intros He. apply Ho. injection He as ->. reflexivity.
Qed.

Ltac only_ValueError :=
  repeat first
    [ apply raises_only_ValueError_Return
    | apply raises_only_ValueError_raise
    | apply raises_only_ValueError_and_then; [| intros ?]
    | match goal with
      | |- raises_only_ValueError (if ?b then _ else _) => destruct b
      | |- raises_only_ValueError (match ?x with _ => _ end) => destruct x
      | |- raises_only_ValueError (let _ := _ in _) => cbv zeta
      end ].

Lemma ip_address_raises_only_ValueError address :
  raises_only_ValueError (IpAddress.ip_address address).
Proof. unfold IpAddress.ip_address. only_ValueError. Qed.

Lemma check_bracketed_host_raises_only_ValueError hostname :
  raises_only_ValueError (UrlParse._check_bracketed_host hostname).
Proof.
  unfold UrlParse._check_bracketed_host. only_ValueError.
  apply ip_address_raises_only_ValueError.
Qed.

Lemma check_bracketed_netloc_raises_only_ValueError netloc :
  raises_only_ValueError (UrlParse._check_bracketed_netloc netloc).
Proof.
  unfold UrlParse._check_bracketed_netloc.
  only_ValueError; apply check_bracketed_host_raises_only_ValueError.
Qed.

Lemma checknetloc_raises_only_ValueError netloc :
  raises_only_ValueError (UrlParse._checknetloc netloc).
Proof. unfold UrlParse._checknetloc. only_ValueError. Qed.

Lemma take_netloc_raises_only_ValueError url :
  raises_only_ValueError (UrlParse.take_netloc url).
Proof.
  unfold UrlParse.take_netloc. only_ValueError.
  apply check_bracketed_netloc_raises_only_ValueError.
Qed.

Lemma urlsplit_raises_only_ValueError url :
  raises_only_ValueError (UrlParse.urlsplit url).
Proof.
  unfold UrlParse.urlsplit. only_ValueError;
    first [ apply take_netloc_raises_only_ValueError
          | apply checknetloc_raises_only_ValueError ].
Qed.

Lemma urlparse_raises_only_ValueError url :
  raises_only_ValueError (UrlParse.urlparse url).
Proof.
  unfold UrlParse.urlparse. only_ValueError.
  apply urlsplit_raises_only_ValueError.
Qed.

(** ** What follows the last separator *)

Lemma rindex_of_lt c s i : Str.rindex_of c s = Some i -> (i < String.length s)%nat.
Proof.
  revert i. induction s as [|a s IH]; simpl; intros i Hi; [discriminate|].
  destruct (Str.rindex_of c s) as [j|].
  - injection Hi as <-. specialize (IH j eq_refl). lia.
  - destruct (Ascii.eqb a c); [|discriminate]. injection Hi as <-. lia.
Qed.

Lemma bound_nonneg i s :
  0 <= i <= Str.len s -> Str.bound i s = Z.to_nat i.
Proof.
  intros Hi. unfold Str.bound.
  destruct (Z.ltb_spec i 0); [lia|]. f_equal. lia.
Qed.

(** [basename] keeps what follows the last [/], or everything. *)
Lemma basename_after_last p :
  PosixPath.basename p =
  match Str.rindex_of "/" p with
  | Some i => Str.drop (S i) p
  | None => p
  end.
Proof.
  unfold PosixPath.basename, Str.slice_from, Str.rfind, Str.position.
  destruct (Str.rindex_of "/" p) as [i|] eqn:Hi.
  - apply rindex_of_lt in Hi.
    rewrite bound_nonneg by (unfold Str.len; lia).
    replace (Z.to_nat (Z.of_nat i + 1)) with (S i) by lia. reflexivity.
  - rewrite bound_nonneg by (unfold Str.len; lia). reflexivity.
Qed.

Lemma split_not_nil c s : Str.split c s <> [].
Proof.
  destruct s as [|a s]; simpl; [discriminate|].
  destruct (Ascii.eqb a c); [discriminate|].
  destruct (Str.split c s); discriminate.
Qed.

Lemma last_cons_not_nil {A : Type} (x : A) (l : list A) (d : A) :
  l <> [] -> List.last (x :: l) d = List.last l d.
Proof. destruct l; [congruence | reflexivity]. Qed.

(** [split] against [rindex_of]: without separator the string is the only
    piece, with one there are at least two pieces and the last one is what
    follows the last separator. *)
Lemma split_last c s :
  match Str.rindex_of c s with
  | None => Str.split c s = [s]
  | Some i =>
      (exists p1 p2 ps, Str.split c s = p1 :: p2 :: ps)
      /\ List.last (Str.split c s) EmptyString = Str.drop (S i) s
  end.
Proof.
  induction s as [|a s IH]; simpl; [reflexivity|].
  destruct (Str.rindex_of c s) as [i|].
  - destruct IH as [(p1 & p2 & ps & Hs) Hlast]. rewrite Hs in *.
    destruct (Ascii.eqb a c).
    + split; [eauto|]. rewrite <- Hlast. reflexivity.
    + split; [eauto|]. rewrite <- Hlast. reflexivity.
  - rewrite IH. destruct (Ascii.eqb a c).
    + split; [eauto|]. reflexivity.
    + reflexivity.
Qed.

(** The name [basename] gives is the final segment of the path. *)
Lemma basename_final_segment p : PosixPath.basename p = final_segment p.
Proof.
  rewrite basename_after_last. unfold final_segment.
  pose proof (split_last "/" p) as H.
  destruct (Str.rindex_of "/" p) as [i|].
  - destruct H as [_ ->]. reflexivity.
  - rewrite H. reflexivity.
Qed.




(** What [get_output_filename] does when no usable name is given, in one
    equation: the answer of [urlparse] decides. *)
Lemma get_output_filename_guess url w :
  get_output_filename url None w =
  match UrlParse.urlparse url with
  | Return parsed =>
      let filename := PosixPath.basename (UrlParse.path parsed) in
      if str_truthy filename then (Return filename, w)
      else (Return "index.html", printed Msg.no_filename w)
  | Raise e => (Return "index.html", printed (Msg.could_not_parse e) w)
  end.
Proof.
  unfold get_output_filename, try_except, bind, lift.
  pose proof (urlparse_raises_only_ValueError url) as Hv.
  destruct (UrlParse.urlparse url) as [parsed|e]; simpl.
  - destruct (str_truthy _); reflexivity.
  - unfold isinstance. rewrite (Hv e eq_refl). reflexivity.
Qed.


(** ** Strings put together *)

Lemma app_nil t : EmptyString +:+ t = t.
Proof. reflexivity. Qed.

Lemma app_cons a s t : String a s +:+ t = String a (s +:+ t).
Proof. reflexivity. Qed.

Ltac app_step := rewrite ?app_nil, ?app_cons in *; simpl in *.

Lemma app_empty_r s : s +:+ EmptyString = s.
Proof. induction s as [|a s IH]; app_step; [reflexivity | now rewrite IH]. Qed.

Lemma app_assoc_str s t u : (s +:+ t) +:+ u = s +:+ (t +:+ u).
Proof. induction s as [|a s IH]; app_step; [reflexivity | now rewrite IH]. Qed.

Lemma length_app_str s t :
  String.length (s +:+ t) = (String.length s + String.length t)%nat.
Proof. induction s as [|a s IH]; app_step; [reflexivity | now rewrite IH]. Qed.

Lemma take_app_le n s t :
  (n <= String.length s)%nat -> Str.take n (s +:+ t) = Str.take n s.
Proof.
  revert s. induction n as [|n IH]; intros [|a s] Hn; app_step;
    try reflexivity; try lia.
  rewrite IH by lia. reflexivity.
Qed.

Lemma drop_app_le n s t :
  (n <= String.length s)%nat -> Str.drop n (s +:+ t) = Str.drop n s +:+ t.
Proof.
  revert s. induction n as [|n IH]; intros [|a s] Hn; app_step;
    try reflexivity; try lia.
  apply IH. lia.
Qed.

Lemma take_length s t : Str.take (String.length s) (s +:+ t) = s.
Proof.
  induction s as [|a s IH]; app_step; [now destruct t | now rewrite IH].
Qed.

Lemma drop_length s t : Str.drop (String.length s) (s +:+ t) = t.
Proof. induction s as [|a s IH]; app_step; [reflexivity | exact IH]. Qed.

Lemma take_all n s : (String.length s <= n)%nat -> Str.take n s = s.
Proof.
  revert s. induction n as [|n IH]; intros [|a s] Hn; simpl in *;
    try reflexivity; try lia.
  rewrite IH by lia. reflexivity.
Qed.

Lemma drop_all n s : (String.length s <= n)%nat -> Str.drop n s = EmptyString.
Proof.
  revert s. induction n as [|n IH]; intros [|a s] Hn; simpl in *;
    try reflexivity; try lia.
  apply IH. lia.
Qed.

Lemma take_app_ge n s t :
  (String.length s <= n)%nat ->
  Str.take n (s +:+ t) = s +:+ Str.take (n - String.length s) t.
Proof.
  revert n. induction s as [|a s IH]; intros n Hn; app_step.
  - now rewrite Nat.sub_0_r.
  - destruct n as [|n]; [lia|]. simpl. rewrite IH by lia. reflexivity.
Qed.

Lemma index_of_lt c s i : Str.index_of c s = Some i -> (i < String.length s)%nat.
Proof.
  revert i. induction s as [|a s IH]; simpl; intros i Hi; [discriminate|].
  destruct (Ascii.eqb a c).
  - injection Hi as <-. lia.
  - destruct (Str.index_of c s) as [j|]; [|discriminate].
    injection Hi as <-. specialize (IH j eq_refl). lia.
Qed.

Lemma contains_index_of c s :
  Str.contains c s = match Str.index_of c s with Some _ => true | None => false end.
Proof.
  induction s as [|a s IH]; simpl; [reflexivity|].
  destruct (Ascii.eqb a c); [reflexivity|]. rewrite IH.
  destruct (Str.index_of c s); reflexivity.
Qed.

Lemma contains_app c s t :
  Str.contains c (s +:+ t) = Str.contains c s || Str.contains c t.
Proof.
  induction s as [|a s IH]; app_step; [reflexivity|].
  destruct (Ascii.eqb a c); [reflexivity | exact IH].
Qed.

Lemma index_of_app_found c s t i :
  Str.index_of c s = Some i -> Str.index_of c (s +:+ t) = Some i.
Proof.
  revert i. induction s as [|a s IH]; intros i Hi; app_step; [discriminate|].
  destruct (Ascii.eqb a c); [exact Hi|].
  destruct (Str.index_of c s) as [j|]; [|discriminate].
  rewrite (IH j eq_refl). exact Hi.
Qed.

Lemma index_of_app_missing c s t :
  Str.index_of c s = None ->
  Str.index_of c (s +:+ t) =
  match Str.index_of c t with
  | Some j => Some (String.length s + j)%nat
  | None => None
  end.
Proof.
  induction s as [|a s IH]; intros Hs; app_step.
  - destruct (Str.index_of c t); reflexivity.
  - destruct (Ascii.eqb a c); [discriminate|].
    destruct (Str.index_of c s); [discriminate|].
    rewrite (IH eq_refl). destruct (Str.index_of c t); reflexivity.
Qed.

Lemma contains_false_index_of c s :
  Str.contains c s = false -> Str.index_of c s = None.
Proof.
  rewrite contains_index_of. destruct (Str.index_of c s); [discriminate | reflexivity].
Qed.

(** A mark that [s] does not have is found right after [s]. *)
Lemma index_of_mark c s t :
  Str.contains c s = false ->
  Str.index_of c (s +:+ String c t) = Some (String.length s).
Proof.
  intros Hs. rewrite index_of_app_missing by now apply contains_false_index_of.
  simpl. rewrite Ascii.eqb_refl. f_equal. lia.
Qed.

(** ** Slices at positions that are not negative *)

Lemma slice_to_nat i s : 0 <= i -> Str.slice_to i s = Str.take (Z.to_nat i) s.
Proof.
  intros Hi. unfold Str.slice_to, Str.bound, Str.len.
  destruct (Z.ltb_spec i 0); [lia|].
  destruct (Z.le_gt_cases i (Z.of_nat (String.length s))).
  - f_equal. lia.
  - rewrite !take_all by lia. reflexivity.
Qed.

Lemma slice_from_nat i s : 0 <= i -> Str.slice_from i s = Str.drop (Z.to_nat i) s.
Proof.
  intros Hi. unfold Str.slice_from, Str.bound, Str.len.
  destruct (Z.ltb_spec i 0); [lia|].
  destruct (Z.le_gt_cases i (Z.of_nat (String.length s))).
  - f_equal. lia.
  - rewrite !drop_all by lia. reflexivity.
Qed.

(** ** What the stages of [urlsplit] keep *)

Lemma lstrip_is_drop chars s : exists k, Str.lstrip chars s = Str.drop k s.
Proof.
  induction s as [|a s [k IH]]; simpl.
  - exists O. reflexivity.
  - destruct (chars a).
    + exists (S k). exact IH.
    + exists O. reflexivity.
Qed.

Lemma contains_drop c k s :
  Str.contains c s = false -> Str.contains c (Str.drop k s) = false.
Proof.
  revert s. induction k as [|k IH]; intros [|a s]; simpl; auto.
  destruct (Ascii.eqb a c); [discriminate | apply IH].
Qed.

Lemma contains_lstrip c chars s :
  Str.contains c s = false -> Str.contains c (Str.lstrip chars s) = false.
Proof.
  destruct (lstrip_is_drop chars s) as [k ->]. apply contains_drop.
Qed.

Lemma contains_remove c b s :
  Str.contains c s = false -> Str.contains c (Str.remove b s) = false.
Proof.
  induction s as [|a s IH]; simpl; auto.
  destruct (Ascii.eqb a c) eqn:Hac; [discriminate|]. intros Hs.
  destruct (Ascii.eqb a b); simpl; [|rewrite Hac]; auto.
Qed.











(** What [take_scheme] leaves is the URL without some of its first
    characters. *)
Lemma take_scheme_rest url : exists k, snd (UrlParse.take_scheme url) = Str.drop k url.
Proof.
  unfold UrlParse.take_scheme.
  destruct (_ && _).
  - destruct (Str.all _ _).
    + unfold Str.slice_from. eexists. reflexivity.
    + exists O. reflexivity.
  - exists O. reflexivity.
Qed.

(** ** The network location *)

Lemma take_before stop s :
  Str.take (String.length (before stop s)) s = before stop s.
Proof.
  induction s as [|a s IH]; simpl; [reflexivity|].
  destruct (stop a); simpl; [reflexivity | now rewrite IH].
Qed.

Lemma drop_before stop s :
  Str.drop (String.length (before stop s)) s = from stop s.
Proof.
  unfold from. induction s as [|a s IH]; simpl; [reflexivity|].
  destruct (stop a); simpl; [reflexivity | exact IH].
Qed.

Lemma length_before_le stop s :
  (String.length (before stop s) <= String.length s)%nat.
Proof.
  induction s as [|a s IH]; simpl; [lia|]. destruct (stop a); simpl; lia.
Qed.

(** The end of the network location is the first of the positions of
    [/], [?] and [#], or the end of the string. *)
Lemma length_before_delimiter r :
  let pos c := match Str.index_of c r with
               | Some i => i
               | None => String.length r
               end in
  String.length (before netloc_delimiter r)
  = Nat.min (pos "/"%char) (Nat.min (pos "?"%char) (pos "#"%char)).
Proof.
  induction r as [|a r IH]; [reflexivity|].
  cbn zeta in *. unfold netloc_delimiter in *. simpl.
  destruct (Ascii.eqb a "/") eqn:H1; [reflexivity|].
  destruct (Ascii.eqb a "?") eqn:H2; [simpl; lia|].
  destruct (Ascii.eqb a "#") eqn:H3; [simpl; lia|].
  simpl. fold netloc_delimiter in *. rewrite IH.
  destruct (Str.index_of "/" r), (Str.index_of "?" r), (Str.index_of "#" r); lia.
Qed.

Lemma find_from_2 c a b r :
  Str.find_from c 2 (String a (String b r)) =
  match Str.index_of c r with
  | Some i => Z.of_nat (2 + i)
  | None => -1
  end.
Proof.
  unfold Str.find_from. rewrite bound_nonneg by (unfold Str.len; simpl; lia).
  reflexivity.
Qed.

(** [_splitnetloc(url, 2)] cuts what follows the two slashes at the first
    delimiter. *)
Lemma splitnetloc_spec a b r :
  UrlParse._splitnetloc (String a (String b r)) 2
  = (before netloc_delimiter r, from netloc_delimiter r).
Proof.
  unfold UrlParse._splitnetloc. cbn [fold_left]. rewrite !find_from_2.
  pose proof (length_before_delimiter r) as Hlen. cbv beta zeta in Hlen.
  pose proof (length_before_le netloc_delimiter r) as Hle.
  pose proof (index_of_lt "/" r) as H1.
  pose proof (index_of_lt "?" r) as H2.
  pose proof (index_of_lt "#" r) as H3.
  set (n := String.length (before netloc_delimiter r)) in *.
  match goal with
  | |- (Str.slice 2 ?d _, Str.slice_from ?d _) = _ =>
      assert (Hd : d = Z.of_nat (2 + n))
  end.
  { unfold Str.len. cbn [String.length].
    destruct (Str.index_of "/" r) as [i1|]; [specialize (H1 _ eq_refl)|];
    destruct (Str.index_of "?" r) as [i2|]; [specialize (H2 _ eq_refl)| |specialize (H2 _ eq_refl)|];
    destruct (Str.index_of "#" r) as [i3|]; try specialize (H3 _ eq_refl);
    rewrite ?Z.geb_leb;
    repeat match goal with
           | |- context [if ?x <=? ?y then _ else _] => destruct (Z.leb_spec x y)
           end; lia. }
  rewrite Hd. unfold Str.slice.
  rewrite slice_from_nat by lia.
  rewrite !bound_nonneg by (unfold Str.len; cbn [String.length]; lia).
  rewrite Nat2Z.id. change (Z.to_nat 2) with 2%nat.
  cbn [Nat.add Str.take Str.drop].
  subst n. rewrite take_before, drop_before. reflexivity.
Qed.


Lemma take_2 a b r : Str.slice_to 2 (String a (String b r)) = String a (String b EmptyString).
Proof. rewrite slice_to_nat by lia. reflexivity. Qed.

(** What [take_netloc] leaves is the URL itself, or what follows its
    network location. *)
Lemma take_netloc_rest url netloc rest :
  UrlParse.take_netloc url = Return (netloc, rest) ->
  rest = url \/ rest = from netloc_delimiter (Str.drop 2 url).
Proof.
  unfold UrlParse.take_netloc.
  destruct (String.eqb _ _) eqn:Hslashes.
  - destruct url as [|a [|b r]];
      try (rewrite slice_to_nat in Hslashes by lia; simpl in Hslashes;
           first [discriminate | destruct (Ascii.eqb a "/"); discriminate]).
    rewrite splitnetloc_spec.
    destruct (_ || _); [discriminate|].
    destruct (_ && _).
    + destruct (UrlParse._check_bracketed_netloc _); simpl; [|discriminate].
      intros [= _ <-]. right. reflexivity.
    + simpl. intros [= _ <-]. right. reflexivity.
  - intros [= _ <-]. left. reflexivity.
Qed.

Lemma mark_cases c :
  query_or_fragment_mark c = true -> c = "?"%char \/ c = "#"%char.
Proof.
  unfold query_or_fragment_mark. intros H. apply orb_true_iff in H.
  destruct H as [H|H]; apply Ascii.eqb_eq in H; auto.
Qed.

Lemma mark_is_delimiter c :
  query_or_fragment_mark c = true -> netloc_delimiter c = true.
Proof. intros [->| ->]%mark_cases; reflexivity. Qed.

Lemma before_app_stop stop s c t :
  stop c = true -> before stop (s +:+ String c t) = before stop s.
Proof.
  intros Hc. induction s as [|a s IH]; app_step.
  - now rewrite Hc.
  - destruct (stop a); [reflexivity | now rewrite IH].
Qed.

Lemma from_app_stop stop s c t :
  stop c = true -> from stop (s +:+ String c t) = from stop s +:+ String c t.
Proof.
  intros Hc. unfold from. induction s as [|a s IH]; app_step.
  - now rewrite Hc.
  - destruct (stop a); simpl; [reflexivity | exact IH].
Qed.

(** The network location does not depend on a query or a fragment that
    follows it. *)
Lemma take_netloc_app url c t :
  query_or_fragment_mark c = true ->
  UrlParse.take_netloc (url +:+ String c t) =
  match UrlParse.take_netloc url with
  | Return (netloc, rest) => Return (netloc, rest +:+ String c t)
  | Raise e => Raise e
  end.
Proof.
  intros Hc. pose proof (mark_is_delimiter c Hc) as Hd.
  unfold UrlParse.take_netloc.
  destruct url as [|a [|b r]]; rewrite ?app_nil, ?app_cons.
  - rewrite slice_to_nat by lia.
    destruct (mark_cases c Hc) as [-> | ->]; reflexivity.
  - rewrite !slice_to_nat by lia.
    destruct (mark_cases c Hc) as [-> | ->]; simpl;
      destruct (Ascii.eqb a "/"); reflexivity.
  - rewrite !take_2. destruct (String.eqb _ _); [|reflexivity].
    rewrite !splitnetloc_spec.
    rewrite before_app_stop, from_app_stop by exact Hd.
    destruct (_ || _); [reflexivity|].
    destruct (_ && _); [|reflexivity].
    destruct (UrlParse._check_bracketed_netloc _); reflexivity.
Qed.


(** ** The scheme *)

Lemma all_app f s t : Str.all f (s +:+ t) = Str.all f s && Str.all f t.
Proof.
  induction s as [|a s IH]; app_step; [reflexivity|].
  rewrite IH. now rewrite andb_assoc.
Qed.

Lemma mark_not_scheme_char c :
  query_or_fragment_mark c = true -> UrlParse.scheme_chars c = false.
Proof. intros [->| ->]%mark_cases; reflexivity. Qed.

Lemma index_of_cons_other c a t i :
  Ascii.eqb a c = false -> Str.index_of c (String a t) = Some i -> (0 < i)%nat.
Proof.
  simpl. intros ->. destruct (Str.index_of c t); [|discriminate].
  intros [= <-]. lia.
Qed.

(** The scheme does not depend on a query or a fragment that follows, and
    what is left keeps them at its end. *)
Lemma take_scheme_app url c t :
  query_or_fragment_mark c = true ->
  UrlParse.take_scheme (url +:+ String c t)
  = (fst (UrlParse.take_scheme url), snd (UrlParse.take_scheme url) +:+ String c t).
Proof.
  intros Hc. unfold UrlParse.take_scheme, Str.find, Str.position.
  destruct (Str.index_of ":" url) as [i|] eqn:Hi.
  - rewrite (index_of_app_found _ _ _ _ Hi).
    pose proof (index_of_lt _ _ _ Hi) as Hlt.
    destruct url as [|a url']; [discriminate|]. rewrite app_cons.
    destruct (_ && _); [|reflexivity].
    rewrite <- app_cons.
    rewrite !slice_to_nat, !slice_from_nat by lia.
    rewrite take_app_le by lia.
    destruct (Str.all _ _); [|reflexivity].
    rewrite drop_app_le by lia. reflexivity.
  - rewrite andb_false_l.
    rewrite (index_of_app_missing _ _ _ Hi).
    destruct (Str.index_of ":" (String c t)) as [j|] eqn:Hj;
      [|rewrite andb_false_l; reflexivity].
    assert (0 < j)%nat as Hpos.
    { eapply index_of_cons_other; [|exact Hj].
      destruct (mark_cases c Hc) as [-> | ->]; reflexivity. }
    destruct (_ && _); [|reflexivity].
    rewrite slice_to_nat by lia.
    rewrite take_app_ge by lia.
    replace (Z.to_nat (Z.of_nat (String.length url + j)) - String.length url)%nat
      with (S (j - 1)) by lia.
    cbn [Str.take]. rewrite all_app. cbn [Str.all].
    rewrite (mark_not_scheme_char c Hc), andb_false_l, andb_false_r. reflexivity.
Qed.

(** ** The first statements of [urlsplit] *)

Lemma lstrip_app_kept chars s c t :
  chars c = false ->
  Str.lstrip chars (s +:+ String c t) = Str.lstrip chars s +:+ String c t.
Proof.
  intros Hc. induction s as [|a s IH]; app_step.
  - now rewrite Hc.
  - destruct (chars a); [exact IH | reflexivity].
Qed.

Lemma remove_app b s t :
  Str.remove b (s +:+ t) = Str.remove b s +:+ Str.remove b t.
Proof.
  induction s as [|a s IH]; app_step; [reflexivity|].
  destruct (Ascii.eqb a b); [exact IH | now rewrite IH].
Qed.

(** ** The query and the fragment *)

Lemma take_fragment_and_query_plain url :
  Str.contains "#" url = false -> Str.contains "?" url = false ->
  UrlParse.take_fragment_and_query url = (url, EmptyString, EmptyString).
Proof.
  intros H1 H2. unfold UrlParse.take_fragment_and_query. now rewrite H1, H2.
Qed.

Lemma split_once_mark c s t :
  Str.contains c s = false -> Str.split_once c (s +:+ String c t) = (s, t).
Proof.
  intros Hs. unfold Str.split_once. rewrite (index_of_mark _ _ _ Hs).
  rewrite take_length. f_equal.
  clear Hs. induction s as [|a s IH]; [reflexivity | exact IH].
Qed.

(** Whatever follows the first [?] or [#], what comes before it is what
    [take_fragment_and_query] leaves. *)
Lemma take_fragment_and_query_mark url c t :
  Str.contains "#" url = false -> Str.contains "?" url = false ->
  query_or_fragment_mark c = true ->
  exists query fragment,
    UrlParse.take_fragment_and_query (url +:+ String c t) = (url, query, fragment).
Proof.
  intros H1 H2 Hc. unfold UrlParse.take_fragment_and_query.
  destruct (mark_cases c Hc) as [-> | ->].
  - destruct (Str.contains "#" (url +:+ String "?" t)) eqn:Hfrag.
    + unfold Str.split_once at 1.
      pose proof (contains_index_of "#" (url +:+ String "?" t)) as Hidx.
      rewrite Hfrag in Hidx.
      destruct (Str.index_of "#" (url +:+ String "?" t)) as [i|] eqn:Hi; [|discriminate].
      rewrite (index_of_app_missing _ _ _ (contains_false_index_of _ _ H1)) in Hi.
      destruct (Str.index_of "#" (String "?" t)) as [j|] eqn:Hj; [|discriminate].
      injection Hi as <-.
      assert (0 < j)%nat as Hpos by (eapply index_of_cons_other; [|exact Hj]; reflexivity).
      rewrite take_app_ge by lia.
      replace (String.length url + j - String.length url)%nat with (S (j - 1)) by lia.
      cbn [Str.take].
      rewrite contains_app. cbn [Str.contains]. rewrite Ascii.eqb_refl, orb_true_r.
      rewrite (split_once_mark _ _ _ H2). eauto.
    + rewrite contains_app. cbn [Str.contains]. rewrite Ascii.eqb_refl, orb_true_r.
      rewrite (split_once_mark _ _ _ H2). eauto.
  - rewrite contains_app. cbn [Str.contains]. rewrite Ascii.eqb_refl, orb_true_r.
    rewrite (split_once_mark _ _ _ H1). rewrite H2. eauto.
Qed.


(** ** [urlsplit] and [urlparse] as a whole *)

Lemma urlsplit_stages url :
  UrlParse.urlsplit url =
  let '(scheme, rest) := UrlParse.take_scheme (cleaned url) in
  and_then (UrlParse.take_netloc rest) (fun '(netloc, rest) =>
    let '(path, query, fragment) := UrlParse.take_fragment_and_query rest in
    and_then (UrlParse._checknetloc netloc) (fun _ =>
      Return (UrlParse.mkSplitResult scheme netloc path query fragment))).
Proof. reflexivity. Qed.

Lemma cleaned_contains c url :
  Str.contains c url = false -> Str.contains c (cleaned url) = false.
Proof.
  intros H. unfold cleaned. cbn [fold_left UrlParse.UNSAFE_URL_BYTES_TO_REMOVE].
  repeat apply contains_remove. now apply contains_lstrip.
Qed.


Lemma cleaned_app url c t :
  query_or_fragment_mark c = true ->
  exists t', cleaned (url +:+ String c t) = cleaned url +:+ String c t'.
Proof.
  intros Hc. unfold cleaned. cbn [fold_left UrlParse.UNSAFE_URL_BYTES_TO_REMOVE].
  rewrite lstrip_app_kept
    by (destruct (mark_cases c Hc) as [-> | ->]; reflexivity).
  rewrite !remove_app.
  destruct (mark_cases c Hc) as [-> | ->]; cbn [Str.remove Ascii.eqb Bool.eqb];
    eauto.
Qed.

Lemma take_scheme_contains c url :
  Str.contains c url = false ->
  Str.contains c (snd (UrlParse.take_scheme url)) = false.
Proof.
  destruct (take_scheme_rest url) as [k ->]. apply contains_drop.
Qed.

Lemma take_netloc_contains c url netloc rest :
  UrlParse.take_netloc url = Return (netloc, rest) ->
  Str.contains c url = false -> Str.contains c rest = false.
Proof.
  intros [-> | ->]%take_netloc_rest H; [exact H|].
  unfold from. apply contains_lstrip, contains_drop, H.
Qed.


(** A query or a fragment added to a URL that has none changes neither
    the failure of [urlsplit] nor the scheme, the network location and the
    path it finds. *)
Lemma urlsplit_mark url c t :
  Str.contains "#" url = false -> Str.contains "?" url = false ->
  query_or_fragment_mark c = true ->
  match UrlParse.urlsplit url with
  | Return r =>
      exists query fragment,
        UrlParse.urlsplit (url +:+ String c t)
        = Return (UrlParse.mkSplitResult (UrlParse.split_scheme r)
                    (UrlParse.split_netloc r) (UrlParse.split_path r)
                    query fragment)
  | Raise e => UrlParse.urlsplit (url +:+ String c t) = Raise e
  end.
Proof.
  intros H1 H2 Hc. rewrite !urlsplit_stages.
  destruct (cleaned_app url c t Hc) as [t' ->].
  apply cleaned_contains in H1, H2.
  rewrite (take_scheme_app _ _ _ Hc).
  apply take_scheme_contains in H1, H2.
  destruct (UrlParse.take_scheme (cleaned url)) as [scheme rest]. cbn [fst snd] in *.
  rewrite (take_netloc_app _ _ _ Hc).
  destruct (UrlParse.take_netloc rest) as [[netloc rest']|e] eqn:Hnet;
    cbn [and_then]; [|reflexivity].
  pose proof (take_netloc_contains _ _ _ _ Hnet H1) as H1'.
  pose proof (take_netloc_contains _ _ _ _ Hnet H2) as H2'.
  rewrite (take_fragment_and_query_plain _ H1' H2').
  destruct (take_fragment_and_query_mark _ c t' H1' H2' Hc) as (query & fragment & ->).
  destruct (UrlParse._checknetloc netloc); cbn [and_then]; eauto.
Qed.

(** The same for [urlparse], whose path and parameters are cut out of the
    path of [urlsplit]. *)
Lemma urlparse_mark url c t :
  Str.contains "#" url = false -> Str.contains "?" url = false ->
  query_or_fragment_mark c = true ->
  match UrlParse.urlparse url with
  | Return r =>
      exists query fragment,
        UrlParse.urlparse (url +:+ String c t)
        = Return (UrlParse.mkParseResult (UrlParse.scheme r) (UrlParse.netloc r)
                    (UrlParse.path r) (UrlParse.params r) query fragment)
  | Raise e => UrlParse.urlparse (url +:+ String c t) = Raise e
  end.
Proof.
  intros H1 H2 Hc. pose proof (urlsplit_mark url c t H1 H2 Hc) as H.
  unfold UrlParse.urlparse.
  destruct (UrlParse.urlsplit url) as [[scheme netloc path query fragment]|e].
  - destruct H as (query' & fragment' & ->). cbn [and_then].
    cbn [UrlParse.split_scheme UrlParse.split_netloc UrlParse.split_path].
    destruct (if existsb _ _ && _ then _ else _) as [path' params']. eauto.
  - rewrite H. reflexivity.
Qed.




(** ** The claims about [get_output_filename] *)




(** C9, as it holds.  [get_output_filename] opens no file, calls nothing
    and changes no state but the standard output.  When it has a name to
    go by (a provided one, or one in the URL) it returns that name and
    prints nothing; when it has none it returns ["index.html"] and prints
    exactly one line, which says why. *)
Theorem get_output_filename_only_prints url provided w :
  files (snd (get_output_filename url provided w)) = files w
  /\ calls (snd (get_output_filename url provided w)) = calls w
  /\ match found_name url provided with
     | Some name => get_output_filename url provided w = (Return name, w)
     | None =>
         get_output_filename url provided w
         = (Return "index.html",
            printed (match UrlParse.urlparse url with
                     | Return _ => Msg.no_filename
                     | Raise e => Msg.could_not_parse e
                     end) w)
     end.
Proof.
  assert (Hguess :
    match name_in_url url with
    | Some name => get_output_filename url None w = (Return name, w)
    | None =>
        get_output_filename url None w
        = (Return "index.html",
           printed (match UrlParse.urlparse url with
                    | Return _ => Msg.no_filename
                    | Raise e => Msg.could_not_parse e
                    end) w)
    end).
  { unfold name_in_url. rewrite get_output_filename_guess.
    destruct (UrlParse.urlparse url) as [parsed|e]; [|reflexivity].
    cbn zeta. rewrite basename_final_segment.
    destruct (str_truthy _); reflexivity. }
  assert (Hfound :
    match found_name url provided with
    | Some name => get_output_filename url provided w = (Return name, w)
    | None =>
        get_output_filename url provided w
        = (Return "index.html",
           printed (match UrlParse.urlparse url with
                    | Return _ => Msg.no_filename
                    | Raise e => Msg.could_not_parse e
                    end) w)
    end).
  { unfold found_name. destruct provided as [name|]; [|exact Hguess].
    destruct (str_truthy name) eqn:Hname.
    - apply str_truthy_true in Hname.
      apply (provided_filename_is_returned_aux url name w Hname).
    - apply str_truthy_false in Hname. subst name. exact Hguess. }
  destruct (found_name url provided) as [name|]; rewrite Hfound; cbn; auto.
Qed.

(** A URL whose file is called [index.html] gives that name without any
    line being printed: the line goes with the fallback, not with the name. *)
Example index_html_in_the_url_prints_nothing :
  get_output_filename "http://example.com/index.html" None initial_world
  = (Return "index.html", initial_world).
Proof. reflexivity. Qed.

(** C9, as stated, fails: for a URL without a file name the function
    prints a line on the standard output. *)
Lemma get_output_filename_prints :
  stdout (snd (get_output_filename "http://example.com/" None initial_world))
  = ["No filename in URL. Defaulting to 'index.html'"]
  /\ snd (get_output_filename "http://example.com/" None initial_world)
     <> initial_world.
Proof. split; [reflexivity | discriminate]. Qed.

(** C10.  With no filename provided, the result of [get_output_filename]
    is decided by the path of the URL alone, and a query or a fragment
    added to a URL changes nothing of what the function returns and
    prints: no text of theirs can be in the returned name. *)
Theorem filename_ignores_query_and_fragment w :
  (forall url1 url2 parsed1 parsed2,
     UrlParse.urlparse url1 = Return parsed1 ->
     UrlParse.urlparse url2 = Return parsed2 ->
     UrlParse.path parsed1 = UrlParse.path parsed2 ->
     get_output_filename url1 None w = get_output_filename url2 None w)
  /\ (forall url c rest,
     Str.contains "?" url = false -> Str.contains "#" url = false ->
     query_or_fragment_mark c = true ->
     get_output_filename (url +:+ String c rest) None w
     = get_output_filename url None w).
Proof.
  split.
  - intros url1 url2 parsed1 parsed2 H1 H2 Hpath.
    rewrite !get_output_filename_guess, H1, H2, Hpath. reflexivity.
  - intros url c rest Hq Hf Hc.
    rewrite !get_output_filename_guess.
    pose proof (urlparse_mark url c rest Hf Hq Hc) as H.
    destruct (UrlParse.urlparse url) as [parsed|e].
    + destruct H as (query & fragment & ->). reflexivity.
    + rewrite H. reflexivity.
Qed.

Lemma filename_ignores_query_and_fragment_witness :
  get_output_filename "http://example.com/a.zip?x=1#top" None initial_world
  = (Return "a.zip", initial_world).
Proof.
  change "http://example.com/a.zip?x=1#top"
    with ("http://example.com/a.zip" +:+ String "?" "x=1#top").
  rewrite (proj2 (filename_ignores_query_and_fragment initial_world)
             "http://example.com/a.zip" "?"%char "x=1#top"
             eq_refl eq_refl eq_refl).
  reflexivity.
Defined.

End FilenameResolver.

(* ===================================================================== *)
(** * Properties of [download_with_cookies] *)
(* ===================================================================== *)

Section Downloader.

Implicit Types (env : Env) (url output_file : string) (w : World) (e : exn).

(** ** Loading the cookies *)

Lemma jar_truthy_false (jar : CookieJar) : jar_truthy jar = false -> jar = [].
Proof. destruct jar; [reflexivity | discriminate]. Qed.

(** The [try] statement that loads the cookies, outcome by outcome. *)
Lemma load_cookies_spec env w :
  load_cookies env w =
  match browsercookie_load env with
  | Return jar =>
      (Return (Some jar),
       printed (if jar_truthy jar then Msg.loaded (Z.of_nat (List.length jar))
                else Msg.no_cookies)
               (called browsercookie_load_call w))
  | Raise e =>
      if is_error e
      then (Return None,
            printed_lines [Msg.error_loading e; Msg.can_happen; Msg.proceeding]
                          (called browsercookie_load_call w))
      else (Raise e, called browsercookie_load_call w)
  end.
Proof.
  unfold load_cookies, try_except, bind, lift, record_call. cbn.
  destruct (browsercookie_load env) as [jar|e]; cbn.
  - destruct (jar_truthy jar); reflexivity.
  - unfold is_error. destruct (isinstance e Exception); cbn; [|reflexivity].
    unfold printed_lines, called. cbn. rewrite <- !app_assoc. reflexivity.
Qed.

(** ** The handlers *)

Lemma is_error_of_class e c :
  isinstance e c = true -> issubclass c Exception = true -> is_error e = true.
Proof.
  unfold is_error, isinstance. destruct (exc_type e), c; cbn; congruence.
Qed.

Lemma network_failure_classes e :
  network_failure e = true ->
  isinstance e HTTPError = false /\ isinstance e RequestException = true.
Proof.
  unfold network_failure, isinstance. destruct (exc_type e); cbn; intuition congruence.
Qed.

(** What the [except] clauses do with an error: they print a report of the
    failure and nothing else, unless the error is an [HTTPError] without
    response. *)
Lemma handle_error output_file e w :
  is_error e = true ->
  (isinstance e HTTPError = true -> exc_response e <> None) ->
  exists report,
    handle (download_handlers output_file) e w = (Return tt, printed_lines report w)
    /\ failure_report output_file report.
Proof.
  unfold is_error. intros Herr Hresp. cbn.
  assert (Hne : forall (s t : string), String.get 1 s <> String.get 1 t -> [s] <> [t])
    by (intros s t H [= ->]; congruence).
  destruct (isinstance e HTTPError).
  - destruct (exc_response e) as [response|] eqn:Hr; [|now destruct Hresp].
    unfold response_of. rewrite Hr.
    exists [Msg.http_error (status_code response) (reason response); Msg.could_be].
    split.
    + unfold bind, ret, print, printed_lines. cbn. rewrite <- app_assoc. reflexivity.
    + split; [constructor | discriminate].
  - destruct (isinstance e RequestException).
    + exists [Msg.error_occurred e]. split; [reflexivity|].
      split; [constructor | apply Hne; discriminate].
    + destruct (isinstance e IOError).
      * exists [Msg.error_writing output_file e]. split; [reflexivity|].
        split; [constructor | apply Hne; discriminate].
      * rewrite Herr. exists [Msg.unexpected e]. split; [reflexivity|].
        split; [constructor | apply Hne; discriminate].
Qed.

(** Whatever the [except] clauses do, they make no call and touch no file. *)
Lemma handle_frame output_file e w :
  files (snd (handle (download_handlers output_file) e w)) = files w
  /\ calls (snd (handle (download_handlers output_file) e w)) = calls w.
Proof.
  cbn. destruct (isinstance e HTTPError).
  - unfold response_of. destruct (exc_response e); cbn; auto.
  - destruct (isinstance e RequestException); [cbn; auto|].
    destruct (isinstance e IOError); [cbn; auto|].
    destruct (isinstance e Exception); cbn; auto.
Qed.


(** ** The request and the file *)

Lemma is_empty_app_cons s c t u :
  IpAddress.is_empty (s +:+ (String c t +:+ u)) = false.
Proof. destruct s; reflexivity. Qed.

(** [raise_for_status] raises for the statuses from 400 to 599, and the
    [HTTPError] it raises carries the response. *)
Lemma raise_for_status_spec response w :
  Requests.raise_for_status response w =
  if error_status (status_code response)
  then (Raise (mkExn HTTPError (exc_str_of_status response) (Some response)), w)
  else (Return tt, w).
Proof.
  unfold Requests.raise_for_status, error_status, exc_str_of_status.
  destruct (400 <=? status_code response) eqn:H400; cbn [andb].
  - destruct (status_code response <? 500) eqn:H500; cbn [andb].
    + rewrite !is_empty_app_cons.
      replace (status_code response <? 600) with true by (symmetry; lia).
      reflexivity.
    + destruct (500 <=? status_code response) eqn:H5; [|lia]. cbn [andb].
      destruct (status_code response <? 600); [|reflexivity].
      rewrite !is_empty_app_cons. reflexivity.
  - destruct (500 <=? status_code response) eqn:H5; [lia|]. reflexivity.
Qed.

Lemma isinstance_HTTPError msg response :
  isinstance (mkExn HTTPError msg response) HTTPError = true.
Proof. reflexivity. Qed.

(** The [try] statement of the download, outcome by outcome. *)
Lemma fetch_and_save_spec env session url output_file w :
  let request := mkRequest url (cookies session) (headers session) true in
  let w1 := called (session_get_call request) w in
  fetch_and_save env session url output_file w =
  match session_get env request with
  | Raise e => handle (download_handlers output_file) e w1
  | Return response =>
      if error_status (status_code response) then
        (Return tt,
         printed_lines
           [Msg.http_error (status_code response) (reason response); Msg.could_be] w1)
      else
        let w2 := called (open_call output_file "wb") w1 in
        match fs_open env output_file with
        | Some e => handle (download_handlers output_file) e w2
        | None =>
            let w3 := called (write_call output_file (content response))
                             (with_file output_file [] w2) in
            match fs_write env output_file (content response) with
            | Some (n, e) =>
                handle (download_handlers output_file) e
                  (called (close_call output_file)
                     (with_file output_file (firstn n (content response)) w3))
            | None =>
                (Return tt,
                 printed (Msg.success output_file)
                   (called (close_call output_file)
                      (with_file output_file (content response) w3)))
            end
        end
  end.
Proof.
  cbn zeta. unfold fetch_and_save, try_except, Requests.get, bind at 1 2, lift,
    record_call at 1.
  cbn [stdout files calls].
  change (mkWorld (stdout w) (files w)
            (calls w ++ [session_get_call (mkRequest url (cookies session) (headers session) true)]))
    with (called (session_get_call (mkRequest url (cookies session) (headers session) true)) w).
  destruct (session_get env _) as [response|e]; [|reflexivity].
  unfold bind at 1. rewrite raise_for_status_spec.
  destruct (error_status (status_code response)).
  - cbn [handle download_handlers]. rewrite isinstance_HTTPError.
    unfold response_of, bind, ret, print, printed_lines, called. cbn.
    rewrite <- app_assoc. reflexivity.
  - unfold with_open_wb, file_write, with_exit, bind, record_call, set_file,
      append_file, raise, print, ret.
    cbn [stdout files calls].
    destruct (fs_open env output_file) as [e|]; [reflexivity|].
    destruct (fs_write env output_file (content response)) as [[n e]|];
      unfold with_file, called, printed; cbn [stdout files calls];
      rewrite lookup_insert_eq; reflexivity.
Qed.


(** ** The whole run *)

(** The world in which the request is made: the cookies have been dealt
    with ([lines] tells how), the session is open and the download is
    announced. *)
Lemma download_with_cookies_run env url output_file w :
  load_interrupted env = false ->
  exists lines,
    download_with_cookies env url output_file w =
    (fst (fetch_and_save env (mkSession (loaded_cookies env) [("User-Agent", USER_AGENT)])
            url output_file
            (printed_lines (Msg.attempting :: lines ++ [Msg.downloading url])
               (called Session_open_call (called browsercookie_load_call w)))),
     called Session_close_call
       (snd (fetch_and_save env (mkSession (loaded_cookies env) [("User-Agent", USER_AGENT)])
               url output_file
               (printed_lines (Msg.attempting :: lines ++ [Msg.downloading url])
                  (called Session_open_call (called browsercookie_load_call w)))))).
Proof.
  unfold load_interrupted, loaded_cookies. intros Hload.
  unfold download_with_cookies. unfold bind at 1 2. cbn [print].
  rewrite load_cookies_spec.
  assert (Hsession : forall cookie_jar lines,
    session_cookies cookie_jar = [] \/ (exists jar, cookie_jar = Some jar) ->
    download_session env cookie_jar url output_file
      (printed_lines lines
         (called browsercookie_load_call
            (mkWorld (stdout w ++ [Msg.attempting]) (files w) (calls w))))
    = (fst (fetch_and_save env
              (mkSession (session_cookies cookie_jar) [("User-Agent", USER_AGENT)])
              url output_file
              (printed_lines (Msg.attempting :: lines ++ [Msg.downloading url])
                 (called Session_open_call (called browsercookie_load_call w)))),
       called Session_close_call
         (snd (fetch_and_save env
                 (mkSession (session_cookies cookie_jar) [("User-Agent", USER_AGENT)])
                 url output_file
                 (printed_lines (Msg.attempting :: lines ++ [Msg.downloading url])
                    (called Session_open_call (called browsercookie_load_call w))))))).
  { intros cookie_jar lines Hjar.
    unfold download_session, Requests.with_Session, with_exit.
    unfold bind at 1 2. unfold record_call at 1, print.
    cbn [stdout files calls printed_lines called].
    assert (Hcookies :
      cookies (match cookie_jar with
               | Some jar =>
                   if jar_truthy jar
                   then mkSession jar (headers (mkSession [] Requests.default_headers))
                   else mkSession [] Requests.default_headers
               | None => mkSession [] Requests.default_headers
               end) = session_cookies cookie_jar).
    { destruct cookie_jar as [jar|]; [|reflexivity]. cbn.
      destruct (jar_truthy jar) eqn:Ht; [reflexivity|].
      apply jar_truthy_false in Ht. now subst. }
    rewrite Hcookies.
    replace (((stdout w ++ [Msg.attempting]) ++ lines) ++ [Msg.downloading url])%list
      with (stdout w ++ Msg.attempting :: lines ++ [Msg.downloading url])%list
      by (rewrite <- !app_assoc; reflexivity).
    destruct (fetch_and_save _ _ _ _ _) as [o w']. reflexivity. }
  destruct (browsercookie_load env) as [jar|e].
  - exists [if jar_truthy jar then Msg.loaded (Z.of_nat (List.length jar))
            else Msg.no_cookies].
    apply (Hsession (Some jar)). eauto.
  - destruct (is_error e); [|discriminate].
    exists [Msg.error_loading e; Msg.can_happen; Msg.proceeding].
    change (printed_lines [Msg.error_loading e; Msg.can_happen; Msg.proceeding]
              (called browsercookie_load_call (snd (Return tt, mkWorld (stdout w ++ [Msg.attempting]) (files w) (calls w)))))
      with (printed_lines [Msg.error_loading e; Msg.can_happen; Msg.proceeding]
              (called browsercookie_load_call (mkWorld (stdout w ++ [Msg.attempting]) (files w) (calls w)))).
    apply (Hsession None). left. reflexivity.
Qed.


Lemma requests_sent_app (l1 l2 : list Call) :
  requests_sent (l1 ++ l2) = (requests_sent l1 ++ requests_sent l2)%list.
Proof. apply flat_map_app. Qed.

Lemma files_opened_app (l1 l2 : list Call) :
  files_opened (l1 ++ l2) = (files_opened l1 ++ files_opened l2)%list.
Proof. apply flat_map_app. Qed.

Lemma handle_stdout output_file e w :
  exists lines,
    stdout (snd (handle (download_handlers output_file) e w)) = (stdout w ++ lines)%list.
Proof.
  cbn. destruct (isinstance e HTTPError).
  - unfold response_of. destruct (exc_response e); cbn.
    + eexists. rewrite <- app_assoc. reflexivity.
    + exists []. now rewrite app_nil_r.
  - destruct (isinstance e RequestException); [cbn; eauto|].
    destruct (isinstance e IOError); [cbn; eauto|].
    destruct (isinstance e Exception); cbn; eauto.
    exists []. now rewrite app_nil_r.
Qed.

(** The calls of the [try] statement of the download: one request, and
    after it the output file is opened once or not at all. *)
Lemma fetch_and_save_calls env session url output_file w :
  exists extra,
    calls (snd (fetch_and_save env session url output_file w))
    = (calls w
       ++ session_get_call (mkRequest url (cookies session) (headers session) true)
          :: extra)%list
    /\ requests_sent extra = []
    /\ (files_opened extra = [] \/ files_opened extra = [output_file]).
Proof.
  rewrite fetch_and_save_spec. cbn zeta.
  destruct (session_get env _) as [response|e].
  - destruct (error_status (status_code response)).
    + exists []. cbn. auto.
    + destruct (fs_open env output_file) as [e|].
      * exists [open_call output_file "wb"].
        rewrite (proj2 (handle_frame _ _ _)). cbn. rewrite <- app_assoc. auto.
      * destruct (fs_write env output_file (content response)) as [[n e]|].
        -- exists [open_call output_file "wb";
                   write_call output_file (content response);
                   close_call output_file].
           rewrite (proj2 (handle_frame _ _ _)). cbn. rewrite <- !app_assoc. auto.
        -- exists [open_call output_file "wb";
                   write_call output_file (content response);
                   close_call output_file].
           cbn. rewrite <- !app_assoc. auto.
  - exists []. rewrite (proj2 (handle_frame _ _ _)). cbn. auto.
Qed.

Lemma fetch_and_save_stdout env session url output_file w :
  exists lines,
    stdout (snd (fetch_and_save env session url output_file w))
    = (stdout w ++ lines)%list.
Proof.
  rewrite fetch_and_save_spec. cbn zeta.
  assert (Hhandle : forall e w', stdout w' = stdout w ->
            exists lines,
              stdout (snd (handle (download_handlers output_file) e w'))
              = (stdout w ++ lines)%list).
  { intros e w' <-. apply handle_stdout. }
  destruct (session_get env _) as [response|e].
  - destruct (error_status (status_code response)); [cbn; eauto|].
    destruct (fs_open env output_file) as [e|]; [now apply Hhandle|].
    destruct (fs_write env output_file (content response)) as [[n e]|];
      [now apply Hhandle | cbn; eauto].
  - now apply Hhandle.
Qed.

Lemma download_session_spec env cookie_jar url output_file w :
  download_session env cookie_jar url output_file w =
  (fst (fetch_and_save env
          (mkSession (session_cookies cookie_jar) [("User-Agent", USER_AGENT)])
          url output_file
          (printed (Msg.downloading url) (called Session_open_call w))),
   called Session_close_call
     (snd (fetch_and_save env
             (mkSession (session_cookies cookie_jar) [("User-Agent", USER_AGENT)])
             url output_file
             (printed (Msg.downloading url) (called Session_open_call w))))).
Proof.
  unfold download_session, Requests.with_Session, with_exit.
  unfold bind at 1 2. unfold record_call at 1, print.
  cbn [stdout files calls printed_lines called].
  assert (Hcookies :
    cookies (match cookie_jar with
             | Some jar =>
                 if jar_truthy jar
                 then mkSession jar (headers (mkSession [] Requests.default_headers))
                 else mkSession [] Requests.default_headers
             | None => mkSession [] Requests.default_headers
             end) = session_cookies cookie_jar).
  { destruct cookie_jar as [jar|]; [|reflexivity]. cbn.
    destruct (jar_truthy jar) eqn:Ht; [reflexivity|].
    apply jar_truthy_false in Ht. now subst. }
  rewrite Hcookies.
  change (mkWorld (stdout w ++ [Msg.downloading url]) (files w)
            (calls w ++ [Session_open_call]))
    with (printed (Msg.downloading url) (called Session_open_call w)).
  destruct (fetch_and_save _ _ _ _ _) as [o w']. reflexivity.
Qed.

(** ** The claims about [download_with_cookies] *)

(** C1.  When [browsercookie.load()] fails with an error, the failure is
    caught: the three lines of the warning are printed, the run goes on as
    the session block with no cookie jar, so that whatever it ends in is
    the doing of the download, and the request is sent with an empty set
    of cookies. *)
Theorem cookie_failure_is_absorbed env url output_file w e :
  browsercookie_load env = Raise e ->
  is_error e = true ->
  download_with_cookies env url output_file w
  = download_session env None url output_file
      (printed_lines [Msg.error_loading e; Msg.can_happen; Msg.proceeding]
         (called browsercookie_load_call (printed Msg.attempting w)))
  /\ (exists lines,
        stdout (snd (download_with_cookies env url output_file w))
        = (stdout w
           ++ [Msg.attempting; Msg.error_loading e; Msg.can_happen; Msg.proceeding;
               Msg.downloading url]
           ++ lines)%list)
  /\ requests_sent (calls (snd (download_with_cookies env url output_file w)))
     = (requests_sent (calls w)
        ++ [mkRequest url [] [("User-Agent", USER_AGENT)] true])%list.
Proof.
  intros Hload Herr.
  assert (Hrun : download_with_cookies env url output_file w
            = download_session env None url output_file
                (printed_lines [Msg.error_loading e; Msg.can_happen; Msg.proceeding]
                   (called browsercookie_load_call (printed Msg.attempting w)))).
  { unfold download_with_cookies. unfold bind at 1 2. cbn [print].
    rewrite load_cookies_spec, Hload, Herr. reflexivity. }
  split; [exact Hrun|]. rewrite Hrun, download_session_spec. cbn [snd].
  split.
  - destruct (fetch_and_save_stdout env
                (mkSession (session_cookies None) [("User-Agent", USER_AGENT)])
                url output_file
                (printed (Msg.downloading url)
                   (called Session_open_call
                      (printed_lines [Msg.error_loading e; Msg.can_happen; Msg.proceeding]
                         (called browsercookie_load_call (printed Msg.attempting w))))))
      as [lines Hlines].
    exists lines. cbn [called stdout]. rewrite Hlines. cbn.
    rewrite <- !app_assoc. reflexivity.
  - destruct (fetch_and_save_calls env
                (mkSession (session_cookies None) [("User-Agent", USER_AGENT)])
                url output_file
                (printed (Msg.downloading url)
                   (called Session_open_call
                      (printed_lines [Msg.error_loading e; Msg.can_happen; Msg.proceeding]
                         (called browsercookie_load_call (printed Msg.attempting w))))))
      as (extra & Hcalls & Hreq & _).
    cbn [called calls]. rewrite Hcalls. cbn [calls printed printed_lines called].
    rewrite !requests_sent_app. cbn [requests_sent flat_map app].
    fold (requests_sent extra). rewrite Hreq. cbn.
    rewrite !app_nil_r. reflexivity.
Qed.

Lemma cookie_failure_is_absorbed_witness :
  requests_sent
    (calls (snd (download_with_cookies
                   (Sample.server_without_cookies 200 "OK" Sample.hello)
                   "http://example.com/data.zip" "data.zip" initial_world)))
  = [mkRequest "http://example.com/data.zip" [] [("User-Agent", USER_AGENT)] true].
Proof.
  exact (proj2 (proj2 (cookie_failure_is_absorbed
                         (Sample.server_without_cookies 200 "OK" Sample.hello)
                         "http://example.com/data.zip" "data.zip" initial_world
                         Sample.locked_store eq_refl eq_refl))).
Defined.


Lemma error_status_below_400 status : status < 400 -> error_status status = false.
Proof. unfold error_status. intros H. destruct (Z.leb_spec 400 status); [lia | reflexivity]. Qed.

Lemma error_status_in_range status : 400 <= status < 600 -> error_status status = true.
Proof.
  unfold error_status. intros H.
  destruct (Z.leb_spec 400 status); [|lia].
  destruct (Z.ltb_spec status 600); [reflexivity | lia].
Qed.

(** C2.  When the response has a status below 400 and the file system
    takes the file, the body of the response is what the file at
    [output_file] holds after the run, byte for byte; no other file is
    touched, and the run ends with the confirmation. *)
Theorem successful_response_is_saved env url output_file w response :
  load_interrupted env = false ->
  session_get env (GET (loaded_cookies env) url) = Return response ->
  status_code response < 400 ->
  fs_open env output_file = None ->
  fs_write env output_file (content response) = None ->
  fst (download_with_cookies env url output_file w) = Return tt
  /\ files (snd (download_with_cookies env url output_file w)) !! output_file
     = Some (content response)
  /\ (forall file, file <> output_file ->
        files (snd (download_with_cookies env url output_file w)) !! file
        = files w !! file)
  /\ exists lines,
       stdout (snd (download_with_cookies env url output_file w))
       = (stdout w ++ lines ++ [Msg.success output_file])%list.
Proof.
  intros Hload Hget Hstatus Hopen Hwrite.
  destruct (download_with_cookies_run env url output_file w Hload) as [lines ->].
  rewrite fetch_and_save_spec. cbn zeta. cbn [cookies headers].
  unfold GET in Hget. rewrite Hget, (error_status_below_400 _ Hstatus), Hopen, Hwrite.
  cbn. split; [reflexivity|]. split; [|split].
  - rewrite lookup_insert_eq. reflexivity.
  - intros file Hfile. rewrite !lookup_insert_ne by congruence. reflexivity.
  - exists (Msg.attempting :: lines ++ [Msg.downloading url]).
    rewrite <- !app_assoc. reflexivity.
Qed.

Lemma successful_response_is_saved_witness :
  files (snd (download_with_cookies (Sample.server 200 "OK" Sample.hello)
                "http://example.com/data.zip" "data.zip" initial_world))
    !! "data.zip"
  = Some Sample.hello.
Proof.
  refine (proj1 (proj2 (successful_response_is_saved
                          (Sample.server 200 "OK" Sample.hello)
                          "http://example.com/data.zip" "data.zip" initial_world
                          (mkResponse 200 "OK" "http://example.com/data.zip" Sample.hello)
                          eq_refl eq_refl _ eq_refl eq_refl))).
  reflexivity.
Defined.

(** C3, as it holds.  When the response has a status from 400 to 599, the
    run reports the HTTP error with the status code and the reason phrase,
    sends no second request, does not open the output file and leaves
    every file as it was. *)
Theorem http_error_status_is_reported env url output_file w response :
  load_interrupted env = false ->
  session_get env (GET (loaded_cookies env) url) = Return response ->
  400 <= status_code response < 600 ->
  fst (download_with_cookies env url output_file w) = Return tt
  /\ (exists lines,
        stdout (snd (download_with_cookies env url output_file w))
        = (stdout w ++ lines
           ++ [Msg.http_error (status_code response) (reason response);
               Msg.could_be])%list)
  /\ requests_sent (calls (snd (download_with_cookies env url output_file w)))
     = (requests_sent (calls w) ++ [GET (loaded_cookies env) url])%list
  /\ files_opened (calls (snd (download_with_cookies env url output_file w)))
     = files_opened (calls w)
  /\ files (snd (download_with_cookies env url output_file w)) = files w.
Proof.
  intros Hload Hget Hstatus.
  destruct (download_with_cookies_run env url output_file w Hload) as [lines ->].
  rewrite fetch_and_save_spec. cbn zeta. cbn [cookies headers].
  unfold GET in *. rewrite Hget, (error_status_in_range _ Hstatus).
  cbn. split; [reflexivity|]. split; [|split; [|split]].
  - exists (Msg.attempting :: lines ++ [Msg.downloading url]).
    rewrite <- !app_assoc. reflexivity.
  - rewrite !requests_sent_app. cbn. rewrite !app_nil_r. reflexivity.
  - rewrite !files_opened_app. cbn. rewrite !app_nil_r. reflexivity.
  - reflexivity.
Qed.

Lemma http_error_status_is_reported_witness :
  files_opened
    (calls (snd (download_with_cookies (Sample.server 404 "Not Found" Sample.hello)
                   "http://example.com/data.zip" "data.zip" initial_world)))
  = [].
Proof.
  refine (proj1 (proj2 (proj2 (proj2 (http_error_status_is_reported
                          (Sample.server 404 "Not Found" Sample.hello)
                          "http://example.com/data.zip" "data.zip" initial_world
                          (mkResponse 404 "Not Found" "http://example.com/data.zip"
                             Sample.hello)
                          eq_refl eq_refl _))))).
  cbn. lia.
Defined.

(** C3, as stated, fails: a response with status 999 is not taken for an
    error; the output file is opened, the body is saved and the run ends
    with the confirmation. *)
Lemma status_999_is_saved :
  400 <= status_code (mkResponse 999 "Request denied" "http://example.com/page" Sample.hello)
  /\ files (snd (download_with_cookies (Sample.server 999 "Request denied" Sample.hello)
                   "http://example.com/page" "page" initial_world)) !! "page"
     = Some Sample.hello
  /\ files_opened
       (calls (snd (download_with_cookies
                      (Sample.server 999 "Request denied" Sample.hello)
                      "http://example.com/page" "page" initial_world)))
     = ["page"]
  /\ List.last
       (stdout (snd (download_with_cookies
                       (Sample.server 999 "Request denied" Sample.hello)
                       "http://example.com/page" "page" initial_world)))
       EmptyString
     = Msg.success "page".
Proof.
  split; [cbn; lia|]. split; [|split]; vm_compute; reflexivity.
Qed.

(** C6.  When the request fails at the network level, the run reports the
    failure with the line of the network errors, does not open the output
    file and leaves every file as it was. *)
Theorem network_failure_is_reported env url output_file w e :
  load_interrupted env = false ->
  session_get env (GET (loaded_cookies env) url) = Raise e ->
  network_failure e = true ->
  fst (download_with_cookies env url output_file w) = Return tt
  /\ (exists lines,
        stdout (snd (download_with_cookies env url output_file w))
        = (stdout w ++ lines ++ [Msg.error_occurred e])%list)
  /\ files_opened (calls (snd (download_with_cookies env url output_file w)))
     = files_opened (calls w)
  /\ files (snd (download_with_cookies env url output_file w)) = files w.
Proof.
  intros Hload Hget Hnet.
  destruct (network_failure_classes e Hnet) as [Hhttp Hreq].
  destruct (download_with_cookies_run env url output_file w Hload) as [lines ->].
  rewrite fetch_and_save_spec. cbn zeta. cbn [cookies headers].
  unfold GET in *. rewrite Hget.
  cbn [handle download_handlers]. rewrite Hhttp, Hreq.
  cbn. split; [reflexivity|]. split; [|split].
  - exists (Msg.attempting :: lines ++ [Msg.downloading url]).
    rewrite <- !app_assoc. reflexivity.
  - rewrite !files_opened_app. cbn. rewrite !app_nil_r. reflexivity.
  - reflexivity.
Qed.

Lemma network_failure_is_reported_witness :
  files_opened
    (calls (snd (download_with_cookies Sample.dead_network
                   "http://example.com/data.zip" "data.zip" initial_world)))
  = []
  /\ files (snd (download_with_cookies Sample.dead_network
                   "http://example.com/data.zip" "data.zip" initial_world))
     = ∅.
Proof.
  exact (proj2 (proj2 (network_failure_is_reported Sample.dead_network
                         "http://example.com/data.zip" "data.zip" initial_world
                         Sample.timed_out eq_refl eq_refl eq_refl))).
Defined.

(** C8.  The run sends one request and no other: to the URL, with the
    cookies that were loaded (none when loading failed), with the fixed
    [User-Agent] as its only header, and with redirections followed. *)
Theorem one_request_with_cookies_and_user_agent env url output_file w :
  load_interrupted env = false ->
  requests_sent (calls (snd (download_with_cookies env url output_file w)))
  = (requests_sent (calls w)
     ++ [mkRequest url (loaded_cookies env) [("User-Agent", USER_AGENT)] true])%list.
Proof.
  intros Hload.
  destruct (download_with_cookies_run env url output_file w Hload) as [lines ->].
  cbn [snd called calls].
  destruct (fetch_and_save_calls env
              (mkSession (loaded_cookies env) [("User-Agent", USER_AGENT)])
              url output_file
              (printed_lines (Msg.attempting :: lines ++ [Msg.downloading url])
                 (called Session_open_call (called browsercookie_load_call w))))
    as (extra & -> & Hreq & _).
  cbn [calls printed_lines called cookies headers].
  rewrite !requests_sent_app. cbn [requests_sent flat_map app].
  fold (requests_sent extra). rewrite Hreq. cbn. rewrite !app_nil_r. reflexivity.
Qed.

Lemma one_request_with_cookies_and_user_agent_witness :
  requests_sent
    (calls (snd (download_with_cookies (Sample.server 200 "OK" Sample.hello)
                   "http://example.com/data.zip" "data.zip" initial_world)))
  = [mkRequest "http://example.com/data.zip" Sample.one_cookie
       [("User-Agent", USER_AGENT)] true].
Proof.
  exact (one_request_with_cookies_and_user_agent (Sample.server 200 "OK" Sample.hello)
           "http://example.com/data.zip" "data.zip" initial_world eq_refl).
Defined.


Lemma expected_load env : expected_failures env -> load_interrupted env = false.
Proof.
  intros Hexp. unfold load_interrupted.
  destruct (browsercookie_load env) as [jar|e] eqn:Hload; [reflexivity|].
  rewrite (load_errors env Hexp e Hload). reflexivity.
Qed.

(** With the failures it expects, a run returns and ends with the
    confirmation, or with the report of what failed. *)
Lemma download_reports env url output_file w :
  expected_failures env ->
  fst (download_with_cookies env url output_file w) = Return tt
  /\ exists lines report,
       stdout (snd (download_with_cookies env url output_file w))
       = (stdout w ++ lines ++ report)%list
       /\ if download_fails env url output_file
          then failure_report output_file report
          else report = [Msg.success output_file].
Proof.
  intros Hexp.
  destruct (download_with_cookies_run env url output_file w (expected_load env Hexp))
    as [lines ->].
  rewrite fetch_and_save_spec. cbn zeta. cbn [cookies headers fst snd called stdout].
  unfold download_fails, GET.
  set (before := (Msg.attempting :: lines ++ [Msg.downloading url])%list).
  assert (Hhandle : forall e w', reportable e ->
            stdout w' = (stdout w ++ before)%list ->
            fst (handle (download_handlers output_file) e w') = Return tt
            /\ exists lines0 report,
                 stdout (snd (handle (download_handlers output_file) e w'))
                 = (stdout w ++ lines0 ++ report)%list
                 /\ failure_report output_file report).
  { intros e w' [Herr Hresp] Hw'.
    destruct (handle_error output_file e w' Herr Hresp) as (report & -> & Hreport).
    split; [reflexivity|]. exists before, report. cbn. rewrite Hw', <- app_assoc. auto. }
  destruct (session_get env _) as [response|e] eqn:Hget.
  - destruct (error_status (status_code response)); cbn [orb].
    + split; [reflexivity|]. eexists before, _. cbn. rewrite <- app_assoc.
      split; [reflexivity|]. split; [constructor | discriminate].
    + destruct (fs_open env output_file) as [e|] eqn:Hopen.
      * apply Hhandle; [eapply open_errors; eassumption | reflexivity].
      * destruct (fs_write env output_file (content response)) as [[n e]|] eqn:Hwrite.
        -- apply Hhandle; [eapply write_errors; eassumption | reflexivity].
        -- split; [reflexivity|]. exists before, [Msg.success output_file].
           cbn. rewrite <- app_assoc. auto.
  - apply Hhandle; [eapply get_errors; eassumption | reflexivity].
Qed.

Lemma get_output_filename_returns url provided w :
  exists name w', get_output_filename url provided w = (Return name, w').
Proof.
  assert (Hguess : exists name w', get_output_filename url None w = (Return name, w')).
  { rewrite get_output_filename_guess.
    destruct (UrlParse.urlparse url) as [parsed|e]; cbn zeta; [|eauto].
    destruct (str_truthy _); eauto. }
  destruct provided as [name|]; [|exact Hguess].
  destruct (str_truthy name) eqn:Hname.
  - apply str_truthy_true in Hname.
    rewrite (provided_filename_is_returned_aux url name w Hname). eauto.
  - apply str_truthy_false in Hname. subst name. exact Hguess.
Qed.

(** C7.  With the failures it expects of its collaborators (errors, not
    interruptions), [download_with_cookies] lets no exception out: it
    returns, the last lines it prints are the confirmation when nothing
    failed and the report of the failure otherwise, and the script ends
    with exit status 0. *)
Theorem failures_end_in_a_report env url output_file w :
  expected_failures env ->
  fst (download_with_cookies env url output_file w) = Return tt
  /\ (exists lines report,
        stdout (snd (download_with_cookies env url output_file w))
        = (stdout w ++ lines ++ report)%list
        /\ if download_fails env url output_file
           then failure_report output_file report
           else report = [Msg.success output_file])
  /\ (forall args, exit_status (fst (main env args w)) = 0).
Proof.
  intros Hexp.
  destruct (download_reports env url output_file w Hexp) as [Hret Hreport].
  split; [exact Hret|]. split; [exact Hreport|].
  intros args. unfold main, bind.
  destruct (get_output_filename_returns (args_url args) (args_output args) w)
    as (name & w' & ->).
  destruct (download_reports env (args_url args) name w' Hexp) as [Hret' _].
  destruct (download_with_cookies env (args_url args) name w') as [o w''].
  cbn in Hret'. subst o. reflexivity.
Qed.

Lemma dead_network_is_expected : expected_failures Sample.dead_network.
Proof.
  split; cbn.
  - discriminate.
  - intros _ e [= <-]. split; [reflexivity | discriminate].
  - discriminate.
  - discriminate.
Defined.

Lemma failures_end_in_a_report_witness :
  fst (download_with_cookies Sample.dead_network
         "http://example.com/data.zip" "data.zip" initial_world) = Return tt
  /\ exit_status
       (fst (main Sample.dead_network
               (mkNamespace "http://example.com/data.zip" None) initial_world)) = 0.
Proof.
  split.
  - exact (proj1 (failures_end_in_a_report Sample.dead_network
                    "http://example.com/data.zip" "data.zip" initial_world
                    dead_network_is_expected)).
  - exact (proj2 (proj2 (failures_end_in_a_report Sample.dead_network
                    "http://example.com/data.zip" "data.zip" initial_world
                    dead_network_is_expected))
             (mkNamespace "http://example.com/data.zip" None)).
Defined.

(** The scenario of the specification: a body of 1024 zero bytes gives a
    file of exactly 1024 bytes. *)
Example kilobyte_of_zeros_is_saved :
  List.length
    (default []
       (files (snd (download_with_cookies
                      (Sample.server 200 "OK" (List.repeat Byte.x00 1024))
                      "http://example.com/data.zip" "out.zip" initial_world))
          !! "out.zip"))
  = 1024%nat.
Proof. vm_compute. reflexivity. Qed.

(** What the hypothesis of C7 leaves out: an interruption of the cookie
    loading goes through the [except Exception] clause and ends the run. *)
Example interruption_is_not_caught :
  fst (download_with_cookies
         (mkEnv (Raise (mkExn KeyboardInterrupt "" None))
                (fun _ => Raise Sample.timed_out) Sample.disk_ok Sample.write_ok)
         "http://example.com/data.zip" "data.zip" initial_world)
  = Raise (mkExn KeyboardInterrupt "" None).
Proof. reflexivity. Qed.

End Downloader.

(* ===================================================================== *)
(** * Further properties of the inferred file name *)
(* ===================================================================== *)

Section InferredName.

Implicit Types (url name : string) (w : World).

Lemma contains_take c n s :
  Str.contains c s = false -> Str.contains c (Str.take n s) = false.
Proof.
  revert s. induction n as [|n IH]; intros [|a s]; simpl; auto.
  destruct (Ascii.eqb a c); [discriminate | apply IH].
Qed.

(** No [c] comes before the first [c] of a string. *)
Lemma contains_take_index_of c s i :
  Str.index_of c s = Some i -> Str.contains c (Str.take i s) = false.
Proof.
  revert i. induction s as [|a s IH]; simpl; intros i Hi; [discriminate|].
  destruct (Ascii.eqb a c) eqn:Hac.
  - injection Hi as <-. reflexivity.
  - destruct (Str.index_of c s) as [j|]; [|discriminate].
    injection Hi as <-. simpl. rewrite Hac. now apply IH.
Qed.

(** No [c] comes after the last [c] of a string. *)
Lemma contains_after_last c s :
  Str.contains c (match Str.rindex_of c s with
                  | Some i => Str.drop (S i) s
                  | None => s
                  end) = false.
Proof.
  induction s as [|a s IH]; [reflexivity|].
  cbn [Str.rindex_of]. destruct (Str.rindex_of c s) as [i|].
  - exact IH.
  - destruct (Ascii.eqb a c) eqn:Hac.
    + exact IH.
    + simpl. rewrite Hac. exact IH.
Qed.

Lemma split_once_first c s :
  Str.contains c s = true -> Str.contains c (fst (Str.split_once c s)) = false.
Proof.
  unfold Str.split_once. rewrite contains_index_of.
  destruct (Str.index_of c s) as [i|] eqn:Hi; [|discriminate].
  intros _. now apply contains_take_index_of.
Qed.

Lemma split_once_is_take c s : exists n, fst (Str.split_once c s) = Str.take n s.
Proof.
  unfold Str.split_once. destruct (Str.index_of c s) as [i|].
  - exists i. reflexivity.
  - exists (String.length s). now rewrite take_all.
Qed.

(** What [take_fragment_and_query] leaves has no [?] and no [#]. *)
Lemma take_fragment_and_query_path url :
  Str.contains "?" (fst (fst (UrlParse.take_fragment_and_query url))) = false
  /\ Str.contains "#" (fst (fst (UrlParse.take_fragment_and_query url))) = false.
Proof.
  unfold UrlParse.take_fragment_and_query.
  assert (Hfrag : exists rest,
            (if Str.contains "#" url then Str.split_once "#" url
             else (url, EmptyString)) = (fst (if Str.contains "#" url
                                              then Str.split_once "#" url
                                              else (url, EmptyString)), rest))
    by (destruct (if Str.contains "#" url then _ else _); eauto).
  assert (Hno : Str.contains "#"
                  (fst (if Str.contains "#" url then Str.split_once "#" url
                        else (url, EmptyString))) = false).
  { destruct (Str.contains "#" url) eqn:H; [now apply split_once_first | exact H]. }
  destruct (if Str.contains "#" url then _ else _) as [u fragment]. cbn [fst] in Hno.
  destruct (Str.contains "?" u) eqn:Hq.
  - pose proof (split_once_first "?" u Hq) as Hq'.
    destruct (split_once_is_take "?" u) as [n Hn].
    destruct (Str.split_once "?" u) as [path query]. cbn [fst] in *.
    split; [exact Hq'|]. subst path. now apply contains_take.
  - cbn [fst]. auto.
Qed.

Lemma urlsplit_path url r :
  UrlParse.urlsplit url = Return r ->
  Str.contains "?" (UrlParse.split_path r) = false
  /\ Str.contains "#" (UrlParse.split_path r) = false.
Proof.
  rewrite urlsplit_stages.
  destruct (UrlParse.take_scheme (cleaned url)) as [scheme rest].
  destruct (UrlParse.take_netloc rest) as [[netloc rest']|e]; cbn [and_then];
    [|discriminate].
  pose proof (take_fragment_and_query_path rest') as Hpath.
  destruct (UrlParse.take_fragment_and_query rest') as [[path query] fragment].
  destruct (UrlParse._checknetloc netloc); cbn [and_then]; [|discriminate].
  intros [= <-]. exact Hpath.
Qed.

Lemma splitparams_is_take p : exists n, fst (UrlParse._splitparams p) = Str.take n p.
Proof.
  unfold UrlParse._splitparams, Str.slice_to.
  destruct (Str.contains "/" p).
  - destruct (_ <? 0); cbn [fst]; [|eauto].
    exists (String.length p). now rewrite take_all.
  - cbn [fst]. eauto.
Qed.

Lemma urlparse_path url r :
  UrlParse.urlparse url = Return r ->
  Str.contains "?" (UrlParse.path r) = false
  /\ Str.contains "#" (UrlParse.path r) = false.
Proof.
  unfold UrlParse.urlparse.
  pose proof (urlsplit_path url) as Hsplit.
  destruct (UrlParse.urlsplit url) as [[scheme netloc path query fragment]|e];
    cbn [and_then]; [|discriminate].
  destruct (Hsplit _ eq_refl) as [Hq Hf]. cbn [UrlParse.split_path] in Hq, Hf.
  destruct (existsb _ _ && _).
  - destruct (splitparams_is_take path) as [n Hn].
    destruct (UrlParse._splitparams path) as [path' params]. cbn [fst] in Hn.
    intros [= <-]. cbn [UrlParse.path]. subst path'.
    split; now apply contains_take.
  - intros [= <-]. auto.
Qed.

Lemma basename_is_drop p : exists n, PosixPath.basename p = Str.drop n p.
Proof. unfold PosixPath.basename, Str.slice_from. eauto. Qed.

(** X1.  The name that [get_output_filename] infers from a URL is a plain
    file name: it is never empty and it has no [/], no [?] and no [#] in
    it, whatever the URL is. *)
Theorem inferred_name_is_plain url w name :
  fst (get_output_filename url None w) = Return name ->
  name <> EmptyString
  /\ Str.contains "/" name = false
  /\ Str.contains "?" name = false
  /\ Str.contains "#" name = false.
Proof.
  rewrite get_output_filename_guess.
  assert (Hindex : "index.html" <> EmptyString
                   /\ Str.contains "/" "index.html" = false
                   /\ Str.contains "?" "index.html" = false
                   /\ Str.contains "#" "index.html" = false)
    by (repeat split; discriminate).
  destruct (UrlParse.urlparse url) as [parsed|e] eqn:Hparse.
  - cbn zeta. destruct (str_truthy _) eqn:Hname; cbn [fst].
    + intros [= <-]. apply str_truthy_true in Hname. split; [exact Hname|].
      destruct (urlparse_path _ _ Hparse) as [Hq Hf].
      split; [|split].
      * rewrite basename_after_last. apply contains_after_last.
      * destruct (basename_is_drop (UrlParse.path parsed)) as [n ->].
        now apply contains_drop.
      * destruct (basename_is_drop (UrlParse.path parsed)) as [n ->].
        now apply contains_drop.
    + intros [= <-]. exact Hindex.
  - cbn [fst]. intros [= <-]. exact Hindex.
Qed.

Lemma inferred_name_is_plain_witness :
  "b.zip" <> EmptyString
  /\ Str.contains "/" "b.zip" = false
  /\ Str.contains "?" "b.zip" = false
  /\ Str.contains "#" "b.zip" = false.
Proof.
  exact (inferred_name_is_plain "http://example.com/a/b.zip?next=/c#/d"
           initial_world "b.zip" eq_refl).
Defined.

End InferredName.

(* ===================================================================== *)
(** * Further properties of the download *)
(* ===================================================================== *)

Section DownloadPaths.

Implicit Types (env : Env) (url output_file : string) (w : World) (e : exn).

Lemma error_status_outside status :
  ~ (400 <= status < 600) -> error_status status = false.
Proof.
  unfold error_status. intros H.
  destruct (Z.leb_spec 400 status); [|reflexivity].
  destruct (Z.ltb_spec status 600); [lia | reflexivity].
Qed.

Lemma not_RequestException e :
  isinstance e RequestException = false -> isinstance e HTTPError = false.
Proof. unfold isinstance. destruct (exc_type e); cbn; congruence. Qed.

Lemma not_OSError e :
  isinstance e OSError = false -> isinstance e RequestException = false.
Proof. unfold isinstance. destruct (exc_type e); cbn; congruence. Qed.

(** The clause that takes an error, by its class. *)
Lemma handle_RequestException output_file e w :
  isinstance e HTTPError = false -> isinstance e RequestException = true ->
  handle (download_handlers output_file) e w
  = (Return tt, printed (Msg.error_occurred e) w).
Proof. intros H1 H2. cbn [handle download_handlers]. now rewrite H1, H2. Qed.

Lemma handle_OSError output_file e w :
  isinstance e RequestException = false -> isinstance e OSError = true ->
  handle (download_handlers output_file) e w
  = (Return tt, printed (Msg.error_writing output_file e) w).
Proof.
  intros H1 H2. cbn [handle download_handlers]. unfold IOError.
  now rewrite (not_RequestException e H1), H1, H2.
Qed.

Lemma handle_other output_file e w :
  isinstance e OSError = false -> is_error e = true ->
  handle (download_handlers output_file) e w
  = (Return tt, printed (Msg.unexpected e) w).
Proof.
  unfold is_error. intros H1 H2. cbn [handle download_handlers]. unfold IOError.
  now rewrite (not_RequestException e (not_OSError e H1)), (not_OSError e H1), H1, H2.
Qed.

Lemma handle_bare_HTTPError output_file e w :
  isinstance e HTTPError = true -> exc_response e = None ->
  handle (download_handlers output_file) e w
  = (Raise (mkExn AttributeError
              "'NoneType' object has no attribute 'status_code'" None), w).
Proof.
  intros H1 H2. cbn [handle download_handlers]. rewrite H1.
  unfold bind, response_of. now rewrite H2.
Qed.

(** An interruption of the cookie loading ends the run on the spot. *)
Lemma download_with_cookies_interrupted env url output_file w :
  load_interrupted env = true ->
  exists e,
    download_with_cookies env url output_file w
    = (Raise e, called browsercookie_load_call (printed Msg.attempting w)).
Proof.
  unfold load_interrupted. intros Hload.
  unfold download_with_cookies. unfold bind at 1 2. cbn [print].
  rewrite load_cookies_spec.
  destruct (browsercookie_load env) as [jar|e]; [discriminate|].
  destruct (is_error e); [discriminate|]. exists e. reflexivity.
Qed.

(** X2.  A response whose status is not from 400 to 599 is saved, whether
    the status is below 400 or above 599: the file holds the body and the
    run ends with the confirmation. *)
Theorem status_outside_error_range_is_saved env url output_file w response :
  load_interrupted env = false ->
  session_get env (GET (loaded_cookies env) url) = Return response ->
  ~ (400 <= status_code response < 600) ->
  fs_open env output_file = None ->
  fs_write env output_file (content response) = None ->
  fst (download_with_cookies env url output_file w) = Return tt
  /\ files (snd (download_with_cookies env url output_file w)) !! output_file
     = Some (content response)
  /\ exists lines,
       stdout (snd (download_with_cookies env url output_file w))
       = (stdout w ++ lines ++ [Msg.success output_file])%list.
Proof.
  intros Hload Hget Hstatus Hopen Hwrite.
  destruct (download_with_cookies_run env url output_file w Hload) as [lines ->].
  rewrite fetch_and_save_spec. cbn zeta. cbn [cookies headers].
  unfold GET in Hget. rewrite Hget, (error_status_outside _ Hstatus), Hopen, Hwrite.
  cbn. split; [reflexivity|]. split.
  - rewrite lookup_insert_eq. reflexivity.
  - exists (Msg.attempting :: lines ++ [Msg.downloading url]).
    rewrite <- !app_assoc. reflexivity.
Qed.

Lemma status_outside_error_range_is_saved_witness :
  files (snd (download_with_cookies (Sample.server 600 "Unknown" Sample.hello)
                "http://example.com/data.zip" "data.zip" initial_world))
    !! "data.zip"
  = Some Sample.hello.
Proof.
  refine (proj1 (proj2 (status_outside_error_range_is_saved
                          (Sample.server 600 "Unknown" Sample.hello)
                          "http://example.com/data.zip" "data.zip" initial_world
                          (mkResponse 600 "Unknown" "http://example.com/data.zip"
                             Sample.hello)
                          eq_refl eq_refl _ eq_refl eq_refl))).
  cbn. lia.
Defined.

(** X3.  When the output file cannot be opened, the run reports the
    failure with the line of the file errors and returns; nothing is
    written, no file is changed, and the session is closed. *)
Theorem open_failure_is_reported env url output_file w response e :
  load_interrupted env = false ->
  session_get env (GET (loaded_cookies env) url) = Return response ->
  ~ (400 <= status_code response < 600) ->
  fs_open env output_file = Some e ->
  isinstance e OSError = true ->
  isinstance e RequestException = false ->
  fst (download_with_cookies env url output_file w) = Return tt
  /\ (exists lines,
        stdout (snd (download_with_cookies env url output_file w))
        = (stdout w ++ lines ++ [Msg.error_writing output_file e])%list)
  /\ calls (snd (download_with_cookies env url output_file w))
     = (calls w ++ calls_up_to_request env url
        ++ [open_call output_file "wb"; Session_close_call])%list
  /\ files (snd (download_with_cookies env url output_file w)) = files w.
Proof.
  intros Hload Hget Hstatus Hopen Hos Hreq.
  destruct (download_with_cookies_run env url output_file w Hload) as [lines ->].
  rewrite fetch_and_save_spec. cbn zeta. cbn [cookies headers].
  unfold calls_up_to_request, GET in *.
  rewrite Hget, (error_status_outside _ Hstatus), Hopen.
  rewrite (handle_OSError _ _ _ Hreq Hos).
  cbn. split; [reflexivity|]. split; [|split].
  - exists (Msg.attempting :: lines ++ [Msg.downloading url]).
    rewrite <- !app_assoc. reflexivity.
  - rewrite <- !app_assoc. reflexivity.
  - reflexivity.
Qed.

Lemma open_failure_is_reported_witness :
  files (snd (download_with_cookies Sample.read_only_directory
                "http://example.com/data.zip" "data.zip" initial_world))
  = ∅.
Proof.
  refine (proj2 (proj2 (proj2 (open_failure_is_reported Sample.read_only_directory
                          "http://example.com/data.zip" "data.zip" initial_world
                          (mkResponse 200 "OK" "http://example.com/data.zip" Sample.hello)
                          Sample.permission_denied
                          eq_refl eq_refl _ eq_refl eq_refl eq_refl)))).
  cbn. lia.
Defined.

(** X4.  When the writing fails after some bytes, the file is left with
    those bytes only, whatever it held before; it is closed all the same,
    and the run reports the failure and returns. *)
Theorem failed_write_leaves_partial_file env url output_file w response n e :
  load_interrupted env = false ->
  session_get env (GET (loaded_cookies env) url) = Return response ->
  ~ (400 <= status_code response < 600) ->
  fs_open env output_file = None ->
  fs_write env output_file (content response) = Some (n, e) ->
  isinstance e OSError = true ->
  isinstance e RequestException = false ->
  fst (download_with_cookies env url output_file w) = Return tt
  /\ files (snd (download_with_cookies env url output_file w)) !! output_file
     = Some (firstn n (content response))
  /\ (exists lines,
        stdout (snd (download_with_cookies env url output_file w))
        = (stdout w ++ lines ++ [Msg.error_writing output_file e])%list)
  /\ calls (snd (download_with_cookies env url output_file w))
     = (calls w ++ calls_up_to_request env url
        ++ [open_call output_file "wb"; write_call output_file (content response);
            close_call output_file; Session_close_call])%list.
Proof.
  intros Hload Hget Hstatus Hopen Hwrite Hos Hreq.
  destruct (download_with_cookies_run env url output_file w Hload) as [lines ->].
  rewrite fetch_and_save_spec. cbn zeta. cbn [cookies headers].
  unfold calls_up_to_request, GET in *.
  rewrite Hget, (error_status_outside _ Hstatus), Hopen, Hwrite.
  rewrite (handle_OSError _ _ _ Hreq Hos).
  cbn. split; [reflexivity|]. split; [|split].
  - rewrite lookup_insert_eq. reflexivity.
  - exists (Msg.attempting :: lines ++ [Msg.downloading url]).
    rewrite <- !app_assoc. reflexivity.
  - rewrite <- !app_assoc. reflexivity.
Qed.

Lemma failed_write_leaves_partial_file_witness :
  files (snd (download_with_cookies Sample.full_disk
                "http://example.com/data.zip" "data.zip" initial_world))
    !! "data.zip"
  = Some (list_byte_of_string "he").
Proof.
  refine (proj1 (proj2 (failed_write_leaves_partial_file Sample.full_disk
                          "http://example.com/data.zip" "data.zip" initial_world
                          (mkResponse 200 "OK" "http://example.com/data.zip" Sample.hello)
                          2%nat Sample.no_space_left
                          eq_refl eq_refl _ eq_refl eq_refl eq_refl eq_refl))).
  cbn. lia.
Defined.


(** X5.  The calls of a run that is not interrupted, in their order: the
    cookies are loaded, the session is opened, one request is sent, then
    the output file is left alone, or opened in vain, or opened, written
    and closed, and last the session is closed; this holds also when an
    exception leaves the function. *)
Theorem calls_of_a_run env url output_file w :
  load_interrupted env = false ->
  exists file_calls,
    calls (snd (download_with_cookies env url output_file w))
    = (calls w ++ calls_up_to_request env url ++ file_calls
       ++ [Session_close_call])%list
    /\ (file_calls = []
        \/ file_calls = [open_call output_file "wb"]
        \/ exists data,
             file_calls = [open_call output_file "wb"; write_call output_file data;
                           close_call output_file]).
Proof.
  intros Hload.
  destruct (download_with_cookies_run env url output_file w Hload) as [lines ->].
  rewrite fetch_and_save_spec. cbn zeta. cbn [cookies headers snd].
  unfold calls_up_to_request, GET.
  destruct (session_get env _) as [response|e].
  - destruct (error_status (status_code response)).
    + exists []. split; [|auto]. cbn. rewrite <- !app_assoc. reflexivity.
    + destruct (fs_open env output_file) as [e|].
      * exists [open_call output_file "wb"]. split; [|auto].
        cbn [called calls]. rewrite (proj2 (handle_frame _ _ _)).
        cbn. rewrite <- !app_assoc. reflexivity.
      * exists [open_call output_file "wb";
                write_call output_file (content response); close_call output_file].
        split; [|eauto].
        destruct (fs_write env output_file (content response)) as [[n e]|].
        -- cbn [called calls]. rewrite (proj2 (handle_frame _ _ _)).
           cbn. rewrite <- !app_assoc. reflexivity.
        -- cbn. rewrite <- !app_assoc. reflexivity.
  - exists []. split; [|auto].
    cbn [called calls]. rewrite (proj2 (handle_frame _ _ _)).
    cbn. rewrite <- !app_assoc. reflexivity.
Qed.

Lemma calls_of_a_run_witness :
  exists file_calls,
    calls (snd (download_with_cookies Sample.dead_network
                  "http://example.com/data.zip" "data.zip" initial_world))
    = (calls initial_world
       ++ calls_up_to_request Sample.dead_network "http://example.com/data.zip"
       ++ file_calls ++ [Session_close_call])%list
    /\ (file_calls = []
        \/ file_calls = [open_call "data.zip" "wb"]
        \/ exists data,
             file_calls = [open_call "data.zip" "wb"; write_call "data.zip" data;
                           close_call "data.zip"]).
Proof.
  exact (calls_of_a_run Sample.dead_network "http://example.com/data.zip" "data.zip"
           initial_world eq_refl).
Defined.

(** X6.  Once the output file is open it is closed again, whatever the
    writing of the body ends in. *)
Theorem opened_file_is_closed env url output_file w response :
  load_interrupted env = false ->
  session_get env (GET (loaded_cookies env) url) = Return response ->
  ~ (400 <= status_code response < 600) ->
  fs_open env output_file = None ->
  calls (snd (download_with_cookies env url output_file w))
  = (calls w ++ calls_up_to_request env url
     ++ [open_call output_file "wb"; write_call output_file (content response);
         close_call output_file; Session_close_call])%list.
Proof.
  intros Hload Hget Hstatus Hopen.
  destruct (download_with_cookies_run env url output_file w Hload) as [lines ->].
  rewrite fetch_and_save_spec. cbn zeta. cbn [cookies headers snd].
  unfold calls_up_to_request, GET in *.
  rewrite Hget, (error_status_outside _ Hstatus), Hopen.
  destruct (fs_write env output_file (content response)) as [[n e]|].
  - cbn [called calls]. rewrite (proj2 (handle_frame _ _ _)).
    cbn. rewrite <- !app_assoc. reflexivity.
  - cbn. rewrite <- !app_assoc. reflexivity.
Qed.

Lemma opened_file_is_closed_witness :
  calls (snd (download_with_cookies Sample.full_disk
                "http://example.com/data.zip" "data.zip" initial_world))
  = (calls initial_world
     ++ calls_up_to_request Sample.full_disk "http://example.com/data.zip"
     ++ [open_call "data.zip" "wb"; write_call "data.zip" Sample.hello;
         close_call "data.zip"; Session_close_call])%list.
Proof.
  refine (opened_file_is_closed Sample.full_disk
            "http://example.com/data.zip" "data.zip" initial_world
            (mkResponse 200 "OK" "http://example.com/data.zip" Sample.hello)
            eq_refl eq_refl _ eq_refl).
  cbn. lia.
Defined.

(** X7.  Whatever the collaborators answer, a run changes no file but the
    output file, and it only adds to what was printed before, starting
    with the line that announces the loading of the cookies. *)
Theorem only_output_file_is_touched env url output_file w :
  (forall file, file <> output_file ->
     files (snd (download_with_cookies env url output_file w)) !! file
     = files w !! file)
  /\ exists lines,
       stdout (snd (download_with_cookies env url output_file w))
       = (stdout w ++ Msg.attempting :: lines)%list.
Proof.
  destruct (load_interrupted env) eqn:Hload.
  - destruct (download_with_cookies_interrupted env url output_file w Hload) as [e ->].
    cbn. split; [reflexivity|]. exists []. reflexivity.
  - destruct (download_with_cookies_run env url output_file w Hload) as [lines ->].
    cbn [snd called files stdout].
    split.
    + intros file Hfile. rewrite fetch_and_save_spec. cbn zeta.
      destruct (session_get env _) as [response|e].
      * destruct (error_status (status_code response)); [reflexivity|].
        destruct (fs_open env output_file) as [e|].
        -- rewrite (proj1 (handle_frame _ _ _)). reflexivity.
        -- destruct (fs_write env output_file (content response)) as [[n e]|].
           ++ rewrite (proj1 (handle_frame _ _ _)). cbn.
              rewrite !lookup_insert_ne by congruence. reflexivity.
           ++ cbn. rewrite !lookup_insert_ne by congruence. reflexivity.
      * rewrite (proj1 (handle_frame _ _ _)). reflexivity.
    + destruct (fetch_and_save_stdout env
                  (mkSession (loaded_cookies env) [("User-Agent", USER_AGENT)])
                  url output_file
                  (printed_lines (Msg.attempting :: lines ++ [Msg.downloading url])
                     (called Session_open_call (called browsercookie_load_call w))))
        as [more ->].
      exists ((lines ++ [Msg.downloading url]) ++ more)%list.
      cbn. rewrite <- !app_assoc. cbn. rewrite <- !app_assoc. reflexivity.
Qed.

(** X8.  Every failure of the request that [requests] reports as one of
    its own exceptions, other than an [HTTPError], ends in the line of the
    network errors: so does a URL without scheme.  The output file is not
    opened. *)
Theorem request_exception_is_reported env url output_file w e :
  load_interrupted env = false ->
  session_get env (GET (loaded_cookies env) url) = Raise e ->
  isinstance e RequestException = true ->
  isinstance e HTTPError = false ->
  fst (download_with_cookies env url output_file w) = Return tt
  /\ (exists lines,
        stdout (snd (download_with_cookies env url output_file w))
        = (stdout w ++ lines ++ [Msg.error_occurred e])%list)
  /\ calls (snd (download_with_cookies env url output_file w))
     = (calls w ++ calls_up_to_request env url ++ [Session_close_call])%list
  /\ files (snd (download_with_cookies env url output_file w)) = files w.
Proof.
  intros Hload Hget Hreq Hhttp.
  destruct (download_with_cookies_run env url output_file w Hload) as [lines ->].
  rewrite fetch_and_save_spec. cbn zeta. cbn [cookies headers].
  unfold calls_up_to_request, GET in *. rewrite Hget.
  rewrite (handle_RequestException _ _ _ Hhttp Hreq).
  cbn. split; [reflexivity|]. split; [|split].
  - exists (Msg.attempting :: lines ++ [Msg.downloading url]).
    rewrite <- !app_assoc. reflexivity.
  - rewrite <- !app_assoc. reflexivity.
  - reflexivity.
Qed.

Lemma request_exception_is_reported_witness :
  fst (download_with_cookies (Sample.failing_transport Sample.missing_schema)
         "example.com/data.zip" "data.zip" initial_world)
  = Return tt.
Proof.
  exact (proj1 (request_exception_is_reported
                  (Sample.failing_transport Sample.missing_schema)
                  "example.com/data.zip" "data.zip" initial_world
                  Sample.missing_schema eq_refl eq_refl eq_refl eq_refl)).
Defined.

(** X9.  An [OSError] of the request that is not one of the exceptions of
    [requests] is taken by the clause meant for the file: the run reports
    an error of writing to the output file although the file was never
    opened. *)
Theorem os_error_of_request_is_reported_as_file_error env url output_file w e :
  load_interrupted env = false ->
  session_get env (GET (loaded_cookies env) url) = Raise e ->
  isinstance e OSError = true ->
  isinstance e RequestException = false ->
  fst (download_with_cookies env url output_file w) = Return tt
  /\ (exists lines,
        stdout (snd (download_with_cookies env url output_file w))
        = (stdout w ++ lines ++ [Msg.error_writing output_file e])%list)
  /\ files_opened (calls (snd (download_with_cookies env url output_file w)))
     = files_opened (calls w).
Proof.
  intros Hload Hget Hos Hreq.
  destruct (download_with_cookies_run env url output_file w Hload) as [lines ->].
  rewrite fetch_and_save_spec. cbn zeta. cbn [cookies headers].
  unfold GET in *. rewrite Hget.
  rewrite (handle_OSError _ _ _ Hreq Hos).
  cbn. split; [reflexivity|]. split.
  - exists (Msg.attempting :: lines ++ [Msg.downloading url]).
    rewrite <- !app_assoc. reflexivity.
  - rewrite !files_opened_app. cbn. rewrite !app_nil_r. reflexivity.
Qed.

Lemma os_error_of_request_is_reported_as_file_error_witness :
  files_opened
    (calls (snd (download_with_cookies
                   (Sample.failing_transport Sample.missing_ca_bundle)
                   "https://example.com/data.zip" "data.zip" initial_world)))
  = [].
Proof.
  exact (proj2 (proj2 (os_error_of_request_is_reported_as_file_error
                  (Sample.failing_transport Sample.missing_ca_bundle)
                  "https://example.com/data.zip" "data.zip" initial_world
                  Sample.missing_ca_bundle eq_refl eq_refl eq_refl eq_refl))).
Defined.

(** X10.  An [HTTPError] of the request that carries no response is not
    reported: the clause that takes it fails on [e.response.status_code],
    the [AttributeError] leaves the function after the session is closed,
    nothing is printed after the announcement of the download, and the
    exit status of such a run is 1. *)
Theorem http_error_without_response_escapes env url output_file w e :
  load_interrupted env = false ->
  session_get env (GET (loaded_cookies env) url) = Raise e ->
  isinstance e HTTPError = true ->
  exc_response e = None ->
  fst (download_with_cookies env url output_file w)
  = Raise (mkExn AttributeError "'NoneType' object has no attribute 'status_code'" None)
  /\ exit_status (fst (download_with_cookies env url output_file w)) = 1
  /\ (exists lines,
        stdout (snd (download_with_cookies env url output_file w))
        = (stdout w ++ lines ++ [Msg.downloading url])%list)
  /\ calls (snd (download_with_cookies env url output_file w))
     = (calls w ++ calls_up_to_request env url ++ [Session_close_call])%list.
Proof.
  intros Hload Hget Hhttp Hresp.
  destruct (download_with_cookies_run env url output_file w Hload) as [lines ->].
  rewrite fetch_and_save_spec. cbn zeta. cbn [cookies headers].
  unfold calls_up_to_request, GET in *. rewrite Hget.
  rewrite (handle_bare_HTTPError _ _ _ Hhttp Hresp).
  cbn. split; [reflexivity|]. split; [reflexivity|]. split.
  - exists (Msg.attempting :: lines). reflexivity.
  - rewrite <- !app_assoc. reflexivity.
Qed.

Lemma http_error_without_response_escapes_witness :
  exit_status
    (fst (download_with_cookies (Sample.failing_transport Sample.bare_http_error)
            "http://example.com/data.zip" "data.zip" initial_world))
  = 1.
Proof.
  exact (proj1 (proj2 (http_error_without_response_escapes
                  (Sample.failing_transport Sample.bare_http_error)
                  "http://example.com/data.zip" "data.zip" initial_world
                  Sample.bare_http_error eq_refl eq_refl eq_refl eq_refl))).
Defined.

(** X11.  An error of the request that is no [OSError] (and so none of the
    exceptions of [requests]) is taken by the last clause: the run reports
    an unexpected error and returns, without opening the output file. *)
Theorem unexpected_error_is_reported env url output_file w e :
  load_interrupted env = false ->
  session_get env (GET (loaded_cookies env) url) = Raise e ->
  is_error e = true ->
  isinstance e OSError = false ->
  fst (download_with_cookies env url output_file w) = Return tt
  /\ (exists lines,
        stdout (snd (download_with_cookies env url output_file w))
        = (stdout w ++ lines ++ [Msg.unexpected e])%list)
  /\ files_opened (calls (snd (download_with_cookies env url output_file w)))
     = files_opened (calls w).
Proof.
  intros Hload Hget Herr Hos.
  destruct (download_with_cookies_run env url output_file w Hload) as [lines ->].
  rewrite fetch_and_save_spec. cbn zeta. cbn [cookies headers].
  unfold GET in *. rewrite Hget.
  rewrite (handle_other _ _ _ Hos Herr).
  cbn. split; [reflexivity|]. split.
  - exists (Msg.attempting :: lines ++ [Msg.downloading url]).
    rewrite <- !app_assoc. reflexivity.
  - rewrite !files_opened_app. cbn. rewrite !app_nil_r. reflexivity.
Qed.

Lemma unexpected_error_is_reported_witness :
  fst (download_with_cookies (Sample.failing_transport Sample.type_error)
         "http://example.com/data.zip" "data.zip" initial_world)
  = Return tt.
Proof.
  exact (proj1 (unexpected_error_is_reported
                  (Sample.failing_transport Sample.type_error)
                  "http://example.com/data.zip" "data.zip" initial_world
                  Sample.type_error eq_refl eq_refl eq_refl eq_refl)).
Defined.


(** X12.  Whatever the collaborators answer, the output file is opened
    only to save a response: the run opens it once when the request
    returns a response whose status is not taken for an error, and not at
    all otherwise. *)
Theorem file_is_opened_only_to_save env url output_file w :
  files_opened (calls (snd (download_with_cookies env url output_file w)))
  = (files_opened (calls w)
     ++ match response_to_save env url with
        | Some _ => [output_file]
        | None => []
        end)%list.
Proof.
  unfold response_to_save.
  destruct (load_interrupted env) eqn:Hload.
  - destruct (download_with_cookies_interrupted env url output_file w Hload) as [e ->].
    cbn. rewrite files_opened_app. cbn. reflexivity.
  - destruct (download_with_cookies_run env url output_file w Hload) as [lines ->].
    rewrite fetch_and_save_spec. cbn zeta. cbn [cookies headers snd].
    unfold GET.
    destruct (session_get env _) as [response|e].
    + destruct (error_status (status_code response)).
      * cbn. rewrite !files_opened_app. cbn. rewrite !app_nil_r. reflexivity.
      * destruct (fs_open env output_file) as [e|].
        -- cbn [called calls]. rewrite (proj2 (handle_frame _ _ _)).
           cbn. rewrite !files_opened_app. cbn. rewrite !app_nil_r. reflexivity.
        -- destruct (fs_write env output_file (content response)) as [[n e]|].
           ++ cbn [called calls]. rewrite (proj2 (handle_frame _ _ _)).
              cbn. rewrite !files_opened_app. cbn. rewrite !app_nil_r. reflexivity.
           ++ cbn. rewrite !files_opened_app. cbn. rewrite !app_nil_r. reflexivity.
    + cbn [called calls]. rewrite (proj2 (handle_frame _ _ _)).
      cbn. rewrite !files_opened_app. cbn. rewrite !app_nil_r. reflexivity.
Qed.

(** X13.  When the cookies are loaded, the run tells how many there are,
    or warns that there is none, right after its first line, and the
    session through which the one request is issued holds exactly the
    cookies that were loaded. *)
Theorem loaded_cookies_are_counted env url output_file w (jar : CookieJar) :
  browsercookie_load env = Return jar ->
  (exists lines,
     stdout (snd (download_with_cookies env url output_file w))
     = (stdout w
        ++ [Msg.attempting;
            match jar with
            | [] => Msg.no_cookies
            | _ :: _ => Msg.loaded (Z.of_nat (List.length jar))
            end;
            Msg.downloading url]
        ++ lines)%list)
  /\ requests_sent (calls (snd (download_with_cookies env url output_file w)))
     = (requests_sent (calls w) ++ [GET jar url])%list.
Proof.
  intros Hjar.
  assert (Hrun : download_with_cookies env url output_file w
            = download_session env (Some jar) url output_file
                (printed (if jar_truthy jar
                          then Msg.loaded (Z.of_nat (List.length jar))
                          else Msg.no_cookies)
                   (called browsercookie_load_call
                      (mkWorld (stdout w ++ [Msg.attempting]) (files w) (calls w))))).
  { unfold download_with_cookies. unfold bind at 1 2. cbn [print].
    rewrite load_cookies_spec, Hjar. reflexivity. }
  rewrite Hrun, download_session_spec. cbn [snd].
  split.
  - destruct (fetch_and_save_stdout env
                (mkSession (session_cookies (Some jar)) [("User-Agent", USER_AGENT)])
                url output_file
                (printed (Msg.downloading url)
                   (called Session_open_call
                      (printed (if jar_truthy jar
                                then Msg.loaded (Z.of_nat (List.length jar))
                                else Msg.no_cookies)
                         (called browsercookie_load_call
                            (mkWorld (stdout w ++ [Msg.attempting]) (files w)
                               (calls w)))))))
      as [lines Hlines].
    exists lines. cbn [called stdout]. rewrite Hlines. cbn.
    rewrite <- !app_assoc. destruct jar; reflexivity.
  - destruct (fetch_and_save_calls env
                (mkSession (session_cookies (Some jar)) [("User-Agent", USER_AGENT)])
                url output_file
                (printed (Msg.downloading url)
                   (called Session_open_call
                      (printed (if jar_truthy jar
                                then Msg.loaded (Z.of_nat (List.length jar))
                                else Msg.no_cookies)
                         (called browsercookie_load_call
                            (mkWorld (stdout w ++ [Msg.attempting]) (files w)
                               (calls w)))))))
      as (extra & Hcalls & Hreq & _).
    cbn [called calls]. rewrite Hcalls. cbn [calls printed called].
    rewrite !requests_sent_app. cbn [requests_sent flat_map app].
    fold (requests_sent extra). rewrite Hreq. cbn.
    rewrite !app_nil_r. reflexivity.
Qed.

Lemma loaded_cookies_are_counted_witness :
  requests_sent
    (calls (snd (download_with_cookies (Sample.server 200 "OK" Sample.hello)
                   "http://example.com/data.zip" "data.zip" initial_world)))
  = (requests_sent (calls initial_world)
     ++ [GET Sample.one_cookie "http://example.com/data.zip"])%list.
Proof.
  exact (proj2 (loaded_cookies_are_counted (Sample.server 200 "OK" Sample.hello)
                  "http://example.com/data.zip" "data.zip" initial_world
                  Sample.one_cookie eq_refl)).
Defined.

(** ** The script as a whole *)

(** A run that saves the body, as the script as a whole needs it. *)
Lemma saving_run env url output_file w response :
  load_interrupted env = false ->
  session_get env (GET (loaded_cookies env) url) = Return response ->
  ~ (400 <= status_code response < 600) ->
  fs_open env output_file = None ->
  fs_write env output_file (content response) = None ->
  fst (download_with_cookies env url output_file w) = Return tt
  /\ files (snd (download_with_cookies env url output_file w)) !! output_file
     = Some (content response).
Proof.
  intros Hload Hget Hstatus Hopen Hwrite.
  destruct (download_with_cookies_run env url output_file w Hload) as [lines ->].
  rewrite fetch_and_save_spec. cbn zeta. cbn [cookies headers].
  unfold GET in Hget. rewrite Hget, (error_status_outside _ Hstatus), Hopen, Hwrite.
  cbn. split; [reflexivity|]. rewrite lookup_insert_eq. reflexivity.
Qed.

(** X14.  Run without [-o] on a URL whose path has a final segment, the
    script saves the body of the response in the file of that name, and
    ends with exit status 0. *)
Theorem script_saves_under_inferred_name env url w parsed response :
  UrlParse.urlparse url = Return parsed ->
  final_segment (UrlParse.path parsed) <> EmptyString ->
  load_interrupted env = false ->
  session_get env (GET (loaded_cookies env) url) = Return response ->
  ~ (400 <= status_code response < 600) ->
  fs_open env (final_segment (UrlParse.path parsed)) = None ->
  fs_write env (final_segment (UrlParse.path parsed)) (content response) = None ->
  exit_status (fst (main env (mkNamespace url None) w)) = 0
  /\ files (snd (main env (mkNamespace url None) w))
       !! final_segment (UrlParse.path parsed)
     = Some (content response).
Proof.
  intros Hparse Hseg Hload Hget Hstatus Hopen Hwrite.
  unfold main, bind. cbn [args_url args_output].
  rewrite get_output_filename_guess, Hparse. cbn zeta.
  rewrite basename_final_segment.
  apply str_truthy_true in Hseg. rewrite Hseg.
  destruct (saving_run env url (final_segment (UrlParse.path parsed)) w response
              Hload Hget Hstatus Hopen Hwrite) as [Hret Hfile].
  rewrite Hret. split; [reflexivity | exact Hfile].
Qed.

Lemma script_saves_under_inferred_name_witness :
  files (snd (main (Sample.server 200 "OK" Sample.hello)
                (mkNamespace "http://example.com/files/data.zip?v=2" None)
                initial_world))
    !! "data.zip"
  = Some Sample.hello.
Proof.
  refine (proj2 (script_saves_under_inferred_name
                   (Sample.server 200 "OK" Sample.hello)
                   "http://example.com/files/data.zip?v=2" initial_world
                   (UrlParse.mkParseResult "http" "example.com" "/files/data.zip"
                      "" "v=2" "")
                   (mkResponse 200 "OK" "http://example.com/files/data.zip?v=2"
                      Sample.hello)
                   eq_refl _ eq_refl eq_refl _ eq_refl eq_refl)).
  - discriminate.
  - cbn. lia.
Defined.



End DownloadPaths.
